(** * Clean Energy API: the request handlers of [main.py]

    A shallow embedding of the FastAPI handlers of [src/main.py] and of the
    pydantic models of [src/schemas.py], followed by the properties the
    specification states about them.

    The handlers talk to three things that live outside the two source
    files: the module-level store handle [db] and the two helpers
    [get_documents] / [create_document] of [database.py], the process
    environment, and pydantic's [EmailStr] check.  They are kept abstract
    (an [Adapter] record and a function [email_str]) wherever a property is
    decided by the handler code alone. *)

From Stdlib Require Import ZArith NArith String Ascii List Lia.
From stdpp Require Import base option list strings gmap fin_maps.

Open Scope string_scope.
Open Scope list_scope.
Open Scope Z_scope.

(** ** Python values *)

(** A Python [str] is a sequence of Unicode code points; [s[:n]] keeps the
    first [n] of them. *)
Abbreviation pystr := (list N) (only parsing).

(** An ASCII literal as a Python string. *)
Definition lit (s : string) : pystr :=
  N_of_ascii <$> list_ascii_of_string s.

(** The three pictographs of the diagnostic endpoint. *)
Definition check_mark : pystr := [0x2705%N].
Definition cross_mark : pystr := [0x274C%N].
Definition warning_sign : pystr := [0x26A0%N; 0xFE0F%N].

(** [s[:n]] for a non-negative literal [n]. *)
Definition slice_to {A} (n : nat) (l : list A) : list A := take n l.

(** The values found in documents, query filters and JSON responses. *)
Inductive value : Type :=
| VNone
| VBool (b : bool)
| VInt (n : Z)
| VStr (s : pystr)
| VList (l : list value)
| VObjectId (oid : N).

Definition value_eq_dec : ∀ x y : value, {x = y} + {x ≠ y}.
Proof.
  fix IH 1. intros x y.
  destruct x, y; try (right; discriminate); try (left; reflexivity).
  - destruct (bool_eq_dec b b0); [left | right]; congruence.
  - destruct (Z.eq_dec n n0); [left | right]; congruence.
  - destruct (decide (s = s0)); [left | right]; congruence.
  - destruct (List.list_eq_dec IH l l0); [left | right]; congruence.
  - destruct (N.eq_dec oid oid0); [left | right]; congruence.
Defined.

#[global] Instance value_eq_decision : EqDecision value := value_eq_dec.

(** A Python [dict] with string keys. *)
Abbreviation dict := (gmap string value) (only parsing).

(** [{k: v for k, v in d.items() if k != "_id"}] *)
Definition strip_id (d : dict) : dict := delete "_id" d.

(** Truthiness of an optional string: [None] and [""] are falsy. *)
Definition truthy (o : option pystr) : bool :=
  match o with
  | Some (_ :: _) => true
  | _ => false
  end.

(** ** Exceptions and results *)

(** The exceptions a handler can let escape.  All three are subclasses of
    Python's [Exception]. *)
Inductive exn : Type :=
| Exception (message : pystr)
| ValidationError (model : string)
| HTTPException (status_code : Z) (detail : pystr).

Inductive outcome (A : Type) : Type :=
| Return (a : A)
| Raise (e : exn).
Arguments Return {A} a.
Arguments Raise {A} e.

#[global] Instance outcome_ret : MRet outcome := λ A a, Return a.
#[global] Instance outcome_bind : MBind outcome := λ A B f m,
  match m with
  | Return a => f a
  | Raise e => Raise e
  end.

(** [[f(x) for x in xs]] where [f] may raise: the first exception ends the
    comprehension. *)
Fixpoint comprehension {A B} (f : A → outcome B) (xs : list A) : outcome (list B) :=
  match xs with
  | [] => Return []
  | x :: xs' => y ← f x; ys ← comprehension f xs'; mret (y :: ys)
  end.

(** ** The pydantic models of [schemas.py] *)

(** pydantic's conversion of a value to [bool]: a boolean, the integers 0
    and 1, and the strings that, whatever their case, spell one of the
    words below; any other value is refused. *)
Definition ascii_lower (c : N) : N :=
  if ((65 <=? c) && (c <=? 90))%N then (c + 32)%N else c.

Definition false_words : list pystr :=
  lit <$> ["0"; "off"; "f"; "false"; "n"; "no"].
Definition true_words : list pystr :=
  lit <$> ["1"; "on"; "t"; "true"; "y"; "yes"].

Definition lax_bool (v : value) : option bool :=
  match v with
  | VBool b => Some b
  | VInt 0 => Some false
  | VInt 1 => Some true
  | VStr s =>
      if bool_decide (ascii_lower <$> s ∈ false_words) then Some false
      else if bool_decide (ascii_lower <$> s ∈ true_words) then Some true
      else None
  | _ => None
  end.

(** pydantic's conversion of a value to [int]: an integer, a boolean (as 0
    or 1), or a string that [int_of_str] reads as a number. *)
Definition lax_int (int_of_str : pystr → option Z) (v : value) : option Z :=
  match v with
  | VInt n => Some n
  | VBool b => Some (if b then 1 else 0)
  | VStr s => int_of_str s
  | _ => None
  end.

(** Validation of one keyword argument against the declared type of its
    field.  A missing required field, or a value that cannot be taken as the
    declared type, makes the constructor raise [ValidationError]; a missing
    field with a default takes the default; keys that name no field are
    ignored.  [EmailStr] is a parameter [email_str]: it refuses a string, or
    gives back the address in its normal form, which is what the model
    keeps. *)
Section Fields.
Variable model : string.
Variable kwargs : dict.

Definition required_str (field : string) : outcome pystr :=
  match kwargs !! field with
  | Some (VStr s) => Return s
  | _ => Raise (ValidationError model)
  end.

Definition optional_str (field : string) : outcome (option pystr) :=
  match kwargs !! field with
  | None | Some VNone => Return None
  | Some (VStr s) => Return (Some s)
  | _ => Raise (ValidationError model)
  end.

Definition as_str (v : value) : outcome pystr :=
  match v with
  | VStr s => Return s
  | _ => Raise (ValidationError model)
  end.

Definition optional_str_list (field : string) : outcome (option (list pystr)) :=
  match kwargs !! field with
  | None | Some VNone => Return None
  | Some (VList l) => l' ← comprehension as_str l; mret (Some l')
  | _ => Raise (ValidationError model)
  end.

Definition bool_or (default : bool) (field : string) : outcome bool :=
  match kwargs !! field with
  | None => Return default
  | Some v =>
      match lax_bool v with
      | Some b => Return b
      | None => Raise (ValidationError model)
      end
  end.

(** [Optional[EmailStr]] with default [None]. *)
Definition optional_email (email_str : pystr → option pystr) (field : string)
  : outcome (option pystr) :=
  match kwargs !! field with
  | None | Some VNone => Return None
  | Some (VStr s) =>
      match email_str s with
      | Some address => Return (Some address)
      | None => Raise (ValidationError model)
      end
  | _ => Raise (ValidationError model)
  end.

(** [EmailStr], required. *)
Definition required_email (email_str : pystr → option pystr) (field : string)
  : outcome pystr :=
  match kwargs !! field with
  | Some (VStr s) =>
      match email_str s with
      | Some address => Return address
      | None => Raise (ValidationError model)
      end
  | _ => Raise (ValidationError model)
  end.

(** [Optional[int]] with default [None] and the bounds [ge=lo], [le=hi],
    checked on the converted number. *)
Definition optional_int_between (int_of_str : pystr → option Z) (lo hi : Z)
    (field : string) : outcome (option Z) :=
  match kwargs !! field with
  | None | Some VNone => Return None
  | Some v =>
      match lax_int int_of_str v with
      | Some n =>
          if (lo <=? n) && (n <=? hi) then Return (Some n)
          else Raise (ValidationError model)
      | None => Raise (ValidationError model)
      end
  end.
End Fields.

Module EnergyProduct.
Record t : Type := {
  name : pystr;
  sector : pystr;
  summary : pystr;
  specs : option (list pystr);
  image : option pystr;
  featured : bool
}.

(** The constructor [EnergyProduct], called with the keyword arguments [kwargs]. *)
Definition new (kwargs : dict) : outcome t :=
  name ← required_str "EnergyProduct" kwargs "name";
  sector ← required_str "EnergyProduct" kwargs "sector";
  summary ← required_str "EnergyProduct" kwargs "summary";
  specs ← optional_str_list "EnergyProduct" kwargs "specs";
  image ← optional_str "EnergyProduct" kwargs "image";
  featured ← bool_or "EnergyProduct" kwargs false "featured";
  mret {| name := name; sector := sector; summary := summary;
          specs := specs; image := image; featured := featured |}.
End EnergyProduct.

Module ImpactStory.
Record t : Type := {
  title : pystr;
  location : option pystr;
  sector : option pystr;
  summary : pystr;
  media_url : option pystr;
  partner : option pystr
}.

(** The constructor [ImpactStory], called with the keyword arguments [kwargs]. *)
Definition new (kwargs : dict) : outcome t :=
  title ← required_str "ImpactStory" kwargs "title";
  location ← optional_str "ImpactStory" kwargs "location";
  sector ← optional_str "ImpactStory" kwargs "sector";
  summary ← required_str "ImpactStory" kwargs "summary";
  media_url ← optional_str "ImpactStory" kwargs "media_url";
  partner ← optional_str "ImpactStory" kwargs "partner";
  mret {| title := title; location := location; sector := sector;
          summary := summary; media_url := media_url; partner := partner |}.
End ImpactStory.

Module Office.
Record t : Type := {
  region : pystr;
  city : pystr;
  address : option pystr;
  phone : option pystr;
  email : option pystr
}.

(** The constructor [Office], called with the keyword arguments [kwargs]. *)
Definition new (email_str : pystr → option pystr) (kwargs : dict) : outcome t :=
  region ← required_str "Office" kwargs "region";
  city ← required_str "Office" kwargs "city";
  address ← optional_str "Office" kwargs "address";
  phone ← optional_str "Office" kwargs "phone";
  email ← optional_email "Office" kwargs email_str "email";
  mret {| region := region; city := city; address := address;
          phone := phone; email := email |}.
End Office.

Module Inquiry.
(** A validated request body: FastAPI builds it before the handler runs,
    so [email] is the address as [EmailStr] gave it back. *)
Record t : Type := {
  name : pystr;
  email : pystr;
  company : option pystr;
  topic : pystr;
  message : pystr;
  consent : bool
}.

(** The constructor [Inquiry], called with the keyword arguments [kwargs]:
    what FastAPI runs on the request body. *)
Definition new (email_str : pystr → option pystr) (kwargs : dict) : outcome t :=
  name ← required_str "Inquiry" kwargs "name";
  email ← required_email "Inquiry" kwargs email_str "email";
  company ← optional_str "Inquiry" kwargs "company";
  topic ← required_str "Inquiry" kwargs "topic";
  message ← required_str "Inquiry" kwargs "message";
  consent ← bool_or "Inquiry" kwargs false "consent";
  mret {| name := name; email := email; company := company;
          topic := topic; message := message; consent := consent |}.
End Inquiry.

Module User.
Record t : Type := {
  name : pystr;
  email : pystr;
  address : pystr;
  age : option Z;
  is_active : bool
}.

(** The constructor [User], called with the keyword arguments [kwargs]. *)
Definition new (email_str : pystr → option pystr) (int_of_str : pystr → option Z)
    (kwargs : dict) : outcome t :=
  name ← required_str "User" kwargs "name";
  email ← required_email "User" kwargs email_str "email";
  address ← required_str "User" kwargs "address";
  age ← optional_int_between "User" kwargs int_of_str 0 120 "age";
  is_active ← bool_or "User" kwargs true "is_active";
  mret {| name := name; email := email; address := address;
          age := age; is_active := is_active |}.
End User.

(** [class InquiryResponse(BaseModel)] of [main.py]. *)
Module InquiryResponse.
Record t : Type := { ok : bool; message : pystr }.
End InquiryResponse.

(** ** The outside world of the handlers *)

(** The object bound to the module-level name [db] when it is not [None]. *)
Variant Database : Type := DatabaseHandle.

(** What a call into the store client gives back: a result, or an
    instance [e] of [Exception], which the handlers only ever inspect through
    [str(e)]. *)
Inductive reply (A : Type) : Type :=
| Ok (a : A)
| Fails (str_e : pystr).
Arguments Ok {A} a.
Arguments Fails {A} str_e.

(** The two members of the handle object that [main.py] touches:
    the attribute [db.name] ([Ok None] when the object has no such
    attribute) and the method [db.list_collection_names()]. *)
Record Client (S : Type) : Type := {
  getattr_name : S → reply (option value);
  list_collection_names : S → reply (list pystr) * S
}.
Arguments getattr_name {S} _ _.
Arguments list_collection_names {S} _ _.

(** The two helpers that [main.py] imports from [database.py], over a store
    state [S].  An omitted optional argument of [get_documents] is [None];
    what [create_document] returns is discarded by its only caller. *)
Record Adapter (S : Type) : Type := {
  get_documents : string → option dict → option Z → S → reply (list dict) * S;
  create_document : string → Inquiry.t → S → reply dict * S
}.
Arguments get_documents {S} _ _ _ _ _.
Arguments create_document {S} _ _ _ _.

(** The calls a handler makes into the store, in the order it makes them. *)
Inductive call : Type :=
| ListCollectionNames
| GetDocuments (collection : string) (filter_dict : option dict) (limit : option Z)
| CreateDocument (collection : string) (data : Inquiry.t).

Record world (S : Type) : Type := World {
  db : option Database;
  environ : gmap string pystr;
  store : S;
  calls : list call
}.
Arguments World {S} _ _ _ _.
Arguments db {S} _.
Arguments environ {S} _.
Arguments store {S} _.
Arguments calls {S} _.

(** A handler is a computation over the world that returns or raises. *)
Definition M (S A : Type) : Type := world S → outcome A * world S.

#[global] Instance M_ret {S} : MRet (M S) := λ A a w, (Return a, w).
#[global] Instance M_bind {S} : MBind (M S) := λ A B f m w,
  match m w with
  | (Return a, w') => f a w'
  | (Raise e, w') => (Raise e, w')
  end.

Definition raise {S A} (e : exn) : M S A := λ w, (Raise e, w).

(** A pure computation that may raise, run inside a handler. *)
Definition lift {S A} (o : outcome A) : M S A := λ w, (o, w).

(** The global [db]. *)
Definition get_db {S} : M S (option Database) := λ w, (Return (db w), w).

(** [os.getenv(key)] *)
Definition getenv {S} (key : string) : M S (option pystr) :=
  λ w, (Return (environ w !! key), w).

(** A call into the store: it is recorded, and the store moves on. *)
Definition invoke {S A} (c : call) (op : S → reply A * S) : M S (reply A) := λ w,
  let '(r, s') := op (store w) in
  (Return r, World (db w) (environ w) s' (calls w ++ [c])).

(** A call outside any [try]: the exception leaves the handler. *)
Definition unguarded {S A} (m : M S (reply A)) : M S A :=
  r ← m;
  match r with
  | Ok a => mret a
  | Fails str_e => raise (Exception str_e)
  end.

(** ** The handlers of [main.py] *)

Definition str_list (l : list string) : value := VList (VStr ∘ lit <$> l).

Section Handlers.
Context {S : Type}.
Variable client : Client S.
Variable database : Adapter S.
Variable email_str : pystr → option pystr.

Definition call_list_collection_names : M S (reply (list pystr)) :=
  invoke ListCollectionNames (list_collection_names client).

Definition call_get_documents (collection : string) (filter_dict : option dict)
    (limit : option Z) : M S (reply (list dict)) :=
  invoke (GetDocuments collection filter_dict limit)
         (get_documents database collection filter_dict limit).

Definition call_create_document (collection : string) (data : Inquiry.t)
  : M S (reply dict) :=
  invoke (CreateDocument collection data) (create_document database collection data).

(** [getattr(db, 'name', default)]: reading the attribute changes nothing;
    [Ok None] stands for an absent attribute. *)
Definition getattr_db_name (default : value) : M S (reply value) := λ w,
  (Return match getattr_name client (store w) with
          | Ok (Some v) => Ok v
          | Ok None => Ok default
          | Fails str_e => Fails str_e
          end, w).

(** [GET /] *)
Definition root : M S dict :=
  mret {[ "status" := VStr (lit "ok");
          "service" := VStr (lit "clean-energy-backend") ]}.

(** [GET /test].  The two [try] blocks are the two matches on a [reply]:
    the attribute lookup is the one statement of the outer block that can
    raise outside the inner block, the listing the one of the inner. *)
Definition test_database : M S dict :=
  let response : dict :=
    {[ "backend" := VStr (check_mark ++ lit " Running");
       "database" := VStr (cross_mark ++ lit " Not Available");
       "database_url" := VStr (cross_mark ++ lit " Not Set");
       "database_name" := VStr (cross_mark ++ lit " Not Set");
       "connection_status" := VStr (lit "Not Connected");
       "collections" := VList [] ]} in
  d ← get_db;
  response ←
    match d with
    | Some _ =>
        let response := <["database_url" := VStr (check_mark ++ lit " Set")]> response in
        name ← getattr_db_name (VStr (check_mark ++ lit " Connected"));
        match name with
        | Ok name =>
            let response := <["database_name" := name]> response in
            let response := <["connection_status" := VStr (lit "Connected")]> response in
            r ← call_list_collection_names;
            match r with
            | Ok collections =>
                let response :=
                  <["collections" := VList (VStr <$> slice_to 10 collections)]> response in
                mret (<["database" := VStr (check_mark ++ lit " Connected & Working")]> response)
            | Fails str_e =>
                mret (<["database" := VStr (warning_sign ++ lit " Connected but Error: "
                                              ++ slice_to 80 str_e)]> response)
            end
        | Fails str_e =>
            mret (<["database" := VStr (cross_mark ++ lit " Error: "
                                          ++ slice_to 80 str_e)]> response)
        end
    | None =>
        mret (<["database" := VStr (cross_mark ++ lit " Database not initialized")]> response)
    end;
  url ← getenv "DATABASE_URL";
  let response :=
    <["database_url" := VStr (if truthy url then check_mark ++ lit " Set"
                              else cross_mark ++ lit " Not Set")]> response in
  name ← getenv "DATABASE_NAME";
  let response :=
    <["database_name" := VStr (if truthy name then check_mark ++ lit " Set"
                               else cross_mark ++ lit " Not Set")]> response in
  mret response.

(** The query filter [filt] that [list_solutions] builds. *)
Definition solutions_filter (sector : option pystr) (featured : option bool) : dict :=
  let filt : dict := ∅ in
  let filt :=
    match sector with
    | Some s => if truthy sector then <["sector" := VStr s]> filt else filt
    | None => filt
    end in
  let filt :=
    match featured with
    | Some b => <["featured" := VBool b]> filt
    | None => filt
    end in
  filt.

(** [GET /api/solutions] *)
Definition list_solutions (sector : option pystr) (featured : option bool)
  : M S (list EnergyProduct.t) :=
  d ← get_db;
  match d with
  | None =>
      p1 ← lift (EnergyProduct.new
        {[ "name" := VStr (lit "Solar Inverters");
           "sector" := VStr (lit "solar");
           "summary" := VStr (lit "High-efficiency PV inverters for utility and C&I.");
           "specs" := str_list ["98.6% max efficiency"; "Grid support"];
           "image" := VNone;
           "featured" := VBool true ]});
      p2 ← lift (EnergyProduct.new
        {[ "name" := VStr (lit "Wind Drive Systems");
           "sector" := VStr (lit "wind");
           "summary" := VStr (lit "Reliable drivetrain and control systems for wind turbines.");
           "specs" := str_list ["Low maintenance"; "High uptime"];
           "image" := VNone;
           "featured" := VBool true ]});
      p3 ← lift (EnergyProduct.new
        {[ "name" := VStr (lit "Battery Energy Storage");
           "sector" := VStr (lit "storage");
           "summary" := VStr (lit "Modular, safe, and scalable storage systems.");
           "specs" := str_list ["LFP chemistry"; "Liquid cooling"];
           "image" := VNone;
           "featured" := VBool true ]});
      let defaults := [p1; p2; p3] in
      mret defaults
  | Some _ =>
      let filt := solutions_filter sector featured in
      docs ← unguarded (call_get_documents "energyproduct" (Some filt) None);
      lift (comprehension (λ d, EnergyProduct.new (strip_id d)) docs)
  end.

(** [GET /api/stories]; an absent [limit] parameter is 6. *)
Definition list_stories (limit : option Z) : M S (list ImpactStory.t) :=
  let limit := default 6 limit in
  d ← get_db;
  match d with
  | None =>
      s1 ← lift (ImpactStory.new
        {[ "title" := VStr (lit "200 MW Solar + Storage in MENA");
           "location" := VStr (lit "UAE");
           "sector" := VStr (lit "solar");
           "summary" := VStr (lit "Hybrid system powering 150k homes while avoiding 300k tons CO2 annually.");
           "media_url" := VNone;
           "partner" := VStr (lit "Masdar") ]});
      s2 ← lift (ImpactStory.new
        {[ "title" := VStr (lit "Offshore Wind Integration");
           "location" := VStr (lit "North Sea");
           "sector" := VStr (lit "wind");
           "summary" := VStr (lit "Advanced grid-forming inverters stabilize offshore wind farms.");
           "media_url" := VNone;
           "partner" := VStr (lit "") ]});
      mret [s1; s2]
  | Some _ =>
      docs ← unguarded (call_get_documents "impactstory" (Some ∅) (Some limit));
      lift (comprehension (λ d, ImpactStory.new (strip_id d)) docs)
  end.

Definition thank_you : InquiryResponse.t :=
  {| InquiryResponse.ok := true;
     InquiryResponse.message := lit "Thank you. Our team will contact you shortly." |}.

(** [POST /api/inquiry] *)
Definition submit_inquiry (payload : Inquiry.t) : M S InquiryResponse.t :=
  if negb (Inquiry.consent payload) then
    raise (HTTPException 400 (lit "Consent required for storing contact info."))
  else
    d ← get_db;
    match d with
    | Some _ =>
        r ← call_create_document "inquiry" payload;
        match r with
        | Ok _ => mret thank_you
        | Fails str_e =>
            mret {| InquiryResponse.ok := false;
                    InquiryResponse.message :=
                      lit "Received but DB error: " ++ slice_to 80 str_e |}
        end
    | None => mret thank_you
    end.

(** What FastAPI does with the JSON body of [POST /api/inquiry]: it builds
    the [Inquiry] from it, and only then calls the handler; a body the model
    refuses never reaches [submit_inquiry]. *)
Definition post_inquiry (body : dict) : M S InquiryResponse.t :=
  payload ← lift (Inquiry.new email_str body);
  submit_inquiry payload.

(** [GET /api/offices] *)
Definition list_offices : M S (list Office.t) :=
  d ← get_db;
  match d with
  | None =>
      o1 ← lift (Office.new email_str
        {[ "region" := VStr (lit "North America");
           "city" := VStr (lit "San Francisco");
           "email" := VStr (lit "na@cleantech.example") ]});
      o2 ← lift (Office.new email_str
        {[ "region" := VStr (lit "EMEA");
           "city" := VStr (lit "Munich");
           "email" := VStr (lit "emea@cleantech.example") ]});
      o3 ← lift (Office.new email_str
        {[ "region" := VStr (lit "APAC");
           "city" := VStr (lit "Singapore");
           "email" := VStr (lit "apac@cleantech.example") ]});
      mret [o1; o2; o3]
  | Some _ =>
      docs ← unguarded (call_get_documents "office" None None);
      lift (comprehension (λ d, Office.new email_str (strip_id d)) docs)
  end.
End Handlers.

(** ** The store of [database.py] *)

(** Modelled from the spec: the module [database.py] ([get_documents] and
    [create_document]) is not among the sources.  The specification gives
    [get_documents(collection, filter = empty, limit = unbounded)] as the
    ordered sequence of the records of the collection that agree with the
    filter on every field of the filter, cut to [limit] records, and
    [create_document(collection, record)] as giving the stored record or
    raising on an I/O failure; identity is a store-assigned identifier.
    The specification does not say what a limit below 1 means; here it
    gives no record.  An I/O failure is a [failure] carried by the store. *)
Module SpecStore.
Record t : Type := {
  collections : gmap string (list dict);
  failure : option pystr;
  next_id : N
}.

(** Equality filter: every field of the filter has that value in [d]. *)
Definition matches (filter_dict d : dict) : bool :=
  forallb (λ kv, bool_decide (d !! kv.1 = Some kv.2)) (map_to_list filter_dict).

Definition get_documents (collection : string) (filter_dict : option dict)
    (limit : option Z) (st : t) : reply (list dict) * t :=
  match failure st with
  | Some str_e => (Fails str_e, st)
  | None =>
      let found :=
        List.filter (matches (default ∅ filter_dict))
                    (default [] (collections st !! collection)) in
      (Ok match limit with
          | Some n => take (Z.to_nat n) found
          | None => found
          end, st)
  end.

(** The fields of a validated [Inquiry] as a document. *)
Definition model_dump (data : Inquiry.t) : dict :=
  {[ "name" := VStr (Inquiry.name data);
     "email" := VStr (Inquiry.email data);
     "company" := from_option VStr VNone (Inquiry.company data);
     "topic" := VStr (Inquiry.topic data);
     "message" := VStr (Inquiry.message data);
     "consent" := VBool (Inquiry.consent data) ]}.

Definition create_document (collection : string) (data : Inquiry.t) (st : t)
  : reply dict * t :=
  match failure st with
  | Some str_e => (Fails str_e, st)
  | None =>
      let stored := <["_id" := VObjectId (next_id st)]> (model_dump data) in
      let old : list dict := default [] (collections st !! collection) in
      (Ok stored,
       {| collections := <[collection := (old ++ [stored])%list]> (collections st);
          failure := None;
          next_id := N.succ (next_id st) |})
  end.

Definition adapter : Adapter t :=
  Build_Adapter t get_documents create_document.
End SpecStore.

(** ** Stores used as concrete inputs *)

(** A store client every call of which raises [Exception(str_e)]. *)
Definition broken_adapter (str_e : pystr) : Adapter unit :=
  {| get_documents := λ _ _ _ s, (Fails str_e, s);
     create_document := λ _ _ s, (Fails str_e, s) |}.

Definition broken_client (str_e : pystr) : Client unit :=
  {| getattr_name := λ _, Ok None;
     list_collection_names := λ s, (Fails str_e, s) |}.

(** A handle with a [name] attribute and the four collections of the site. *)
Definition working_client : Client unit :=
  {| getattr_name := λ _, Ok (Some (VStr (lit "cleanenergy")));
     list_collection_names := λ s,
       (Ok [lit "energyproduct"; lit "impactstory"; lit "office"; lit "inquiry"], s) |}.

(** The value [test_database] leaves under [key], if it returns. *)
Definition reported {S} (r : outcome dict * world S) (key : string) : option value :=
  match r.1 with
  | Return response => response !! key
  | Raise _ => None
  end.

(** ** Expected values *)

(** The three products [list_solutions] builds when there is no store. *)
Definition fixed_solutions : list EnergyProduct.t :=
  [ {| EnergyProduct.name := lit "Solar Inverters";
       EnergyProduct.sector := lit "solar";
       EnergyProduct.summary := lit "High-efficiency PV inverters for utility and C&I.";
       EnergyProduct.specs := Some [lit "98.6% max efficiency"; lit "Grid support"];
       EnergyProduct.image := None;
       EnergyProduct.featured := true |};
    {| EnergyProduct.name := lit "Wind Drive Systems";
       EnergyProduct.sector := lit "wind";
       EnergyProduct.summary := lit "Reliable drivetrain and control systems for wind turbines.";
       EnergyProduct.specs := Some [lit "Low maintenance"; lit "High uptime"];
       EnergyProduct.image := None;
       EnergyProduct.featured := true |};
    {| EnergyProduct.name := lit "Battery Energy Storage";
       EnergyProduct.sector := lit "storage";
       EnergyProduct.summary := lit "Modular, safe, and scalable storage systems.";
       EnergyProduct.specs := Some [lit "LFP chemistry"; lit "Liquid cooling"];
       EnergyProduct.image := None;
       EnergyProduct.featured := true |} ].

(** The world after one more call into the store. *)
Definition after_call {S} (w : world S) (c : call) (s' : S) : world S :=
  World (db w) (environ w) s' (calls w ++ [c]).

(** A submission with consent, and the same one without. *)
Definition sample_inquiry (consent : bool) : Inquiry.t :=
  {| Inquiry.name := lit "Ada Lovelace";
     Inquiry.email := lit "ada@example.org";
     Inquiry.company := None;
     Inquiry.topic := lit "Partnerships";
     Inquiry.message := lit "Please call back.";
     Inquiry.consent := consent |}.

(** A stand-in for [EmailStr]: it asks for an at sign and gives the address
    back with what follows the sign in lower case. *)
Fixpoint lower_domain (s : pystr) : option pystr :=
  match s with
  | [] => None
  | c :: s' =>
      if (c =? 64)%N then Some (c :: (ascii_lower <$> s'))
      else cons c <$> lower_domain s'
  end.

(** A stand-in for the reading of a number: decimal digits only. *)
Fixpoint decimal_from (acc : Z) (s : pystr) : option Z :=
  match s with
  | [] => Some acc
  | c :: s' =>
      if ((48 <=? c) && (c <=? 57))%N
      then decimal_from (10 * acc + Z.of_N (c - 48)) s'
      else None
  end.

Definition decimal (s : pystr) : option Z :=
  match s with
  | [] => None
  | _ => decimal_from 0 s
  end.

(** A request body with a consent given as [consent] and an address written
    with an upper-case domain. *)
Definition sample_body (consent : value) : dict :=
  {[ "name" := VStr (lit "Ada Lovelace");
     "email" := VStr (lit "Ada@EXAMPLE.ORG");
     "topic" := VStr (lit "Partnerships");
     "message" := VStr (lit "Please call back.");
     "consent" := consent ]}.

(** A healthy store with nothing in it. *)
Definition empty_store : SpecStore.t :=
  {| SpecStore.collections := ∅; SpecStore.failure := None; SpecStore.next_id := 0%N |}.

(** A stored impact story. *)
Definition story_doc (oid : N) (title : string) : dict :=
  {[ "_id" := VObjectId oid;
     "title" := VStr (lit title);
     "summary" := VStr (lit "A short summary.") ]}.

Definition story (title : string) : ImpactStory.t :=
  {| ImpactStory.title := lit title;
     ImpactStory.location := None;
     ImpactStory.sector := None;
     ImpactStory.summary := lit "A short summary.";
     ImpactStory.media_url := None;
     ImpactStory.partner := None |}.

(** A healthy store holding five impact stories. *)
Definition five_stories : SpecStore.t :=
  {| SpecStore.collections :=
       {[ "impactstory" := [story_doc 1 "one"; story_doc 2 "two"; story_doc 3 "three";
                            story_doc 4 "four"; story_doc 5 "five"] ]};
     SpecStore.failure := None;
     SpecStore.next_id := 6%N |}.

(** The text of an environment flag of [GET /test]. *)
Definition flag (o : option pystr) : value :=
  VStr (if truthy o then check_mark ++ lit " Set" else cross_mark ++ lit " Not Set").

(** The two stories [list_stories] builds when there is no store. *)
Definition fixed_stories : list ImpactStory.t :=
  [ {| ImpactStory.title := lit "200 MW Solar + Storage in MENA";
       ImpactStory.location := Some (lit "UAE");
       ImpactStory.sector := Some (lit "solar");
       ImpactStory.summary :=
         lit "Hybrid system powering 150k homes while avoiding 300k tons CO2 annually.";
       ImpactStory.media_url := None;
       ImpactStory.partner := Some (lit "Masdar") |};
    {| ImpactStory.title := lit "Offshore Wind Integration";
       ImpactStory.location := Some (lit "North Sea");
       ImpactStory.sector := Some (lit "wind");
       ImpactStory.summary :=
         lit "Advanced grid-forming inverters stabilize offshore wind farms.";
       ImpactStory.media_url := None;
       ImpactStory.partner := Some [] |} ].

(** The three offices [list_offices] builds when there is no store. *)
Definition fixed_office (region city : string) (email : pystr) : Office.t :=
  {| Office.region := lit region;
     Office.city := lit city;
     Office.address := None;
     Office.phone := None;
     Office.email := Some email |}.

Definition fixed_offices : list Office.t :=
  [ fixed_office "North America" "San Francisco" (lit "na@cleantech.example");
    fixed_office "EMEA" "Munich" (lit "emea@cleantech.example");
    fixed_office "APAC" "Singapore" (lit "apac@cleantech.example") ].

(** A handler that leaves the world as it found it. *)
Definition pure {S A} (m : M S A) : Prop := ∀ w, (m w).2 = w.

(** An adapter over a fixed sequence of documents: every query returns
    them, every write succeeds. *)
Definition constant_adapter (docs : list dict) : Adapter unit :=
  {| get_documents := λ _ _ _ s, (Ok docs, s);
     create_document := λ _ _ s, (Ok ∅, s) |}.

(** A stored product with only the required fields, and one without a name. *)
Definition product_doc (oid : N) (name : string) : dict :=
  {[ "_id" := VObjectId oid;
     "name" := VStr (lit name);
     "sector" := VStr (lit "solar");
     "summary" := VStr (lit "A short summary.") ]}.

Definition nameless_doc : dict :=
  {[ "_id" := VObjectId 9; "sector" := VStr (lit "wind");
     "summary" := VStr (lit "A short summary.") ]}.

(** A healthy store with one featured product and one that is not. *)
Definition featured_and_not : SpecStore.t :=
  {| SpecStore.collections :=
       {[ "energyproduct" :=
            [ <["featured" := VBool true]> (product_doc 1 "Inverter");
              <["featured" := VBool false]> (product_doc 2 "Turbine") ] ]};
     SpecStore.failure := None;
     SpecStore.next_id := 3%N |}.

(** * Properties *)

(** One step of a handler, without touching the data. *)
Ltac step :=
  cbv beta iota zeta delta
    [mbind mret M_bind M_ret raise lift unguarded get_db getenv invoke
     after_call db environ store calls fst snd reported].

Ltac open_world w :=
  let d := fresh "d" in let env := fresh "env" in
  let s := fresh "s" in let cs := fresh "cs" in
  destruct w as [d env s cs]; cbv [db environ store calls] in *.

(** ** [GET /] *)

(** C6: whatever the store handle, the environment and the store are,
    [GET /] returns the object with ["status"] ["ok"] and ["service"]
    ["clean-energy-backend"], and touches nothing. *)
Theorem root_is_constant {S} (w : world S) :
  root w = (Return {[ "status" := VStr (lit "ok");
                      "service" := VStr (lit "clean-energy-backend") ]}, w).
Proof. reflexivity. Qed.

(** ** [GET /api/solutions] without a store *)

(** C3: with a null store handle, [GET /api/solutions] returns the same three
    fixed products for every value of [sector] and [featured], and never
    calls the store. *)
Theorem list_solutions_without_store {S} (database : Adapter S)
    (sector : option pystr) (featured : option bool) (w : world S) :
  db w = None →
  list_solutions database sector featured w = (Return fixed_solutions, w)
  ∧ length fixed_solutions = 3%nat.
Proof.
  intros Hdb. open_world w. subst d. split; [|reflexivity].
  vm_compute. reflexivity.
Qed.

Lemma list_solutions_without_store_witness :
  let w := World None ∅ tt [] in
  db w = None
  ∧ list_solutions (broken_adapter (lit "down")) (Some (lit "hydrogen")) (Some false) w
    = (Return fixed_solutions, w).
Proof.
  split; [reflexivity|].
  apply (list_solutions_without_store (broken_adapter (lit "down"))
           (Some (lit "hydrogen")) (Some false) (World None ∅ tt [])).
  reflexivity.
Defined.

(** ** [POST /api/inquiry] *)

(** C1: a submission whose [consent] is false is answered with
    [HTTPException] of status 400 and leaves the world as it was, so no call
    into the store is made; hence whenever [submit_inquiry] changes the
    store or calls it, the payload has [consent] true. *)
Theorem submit_inquiry_consent_gate {S} (database : Adapter S)
    (payload : Inquiry.t) (w : world S) :
  (Inquiry.consent payload = false →
     submit_inquiry database payload w
     = (Raise (HTTPException 400 (lit "Consent required for storing contact info.")), w))
  ∧ ((submit_inquiry database payload w).2 ≠ w →
     Inquiry.consent payload = true).
Proof.
  unfold submit_inquiry. split.
  - intros ->. reflexivity.
  - destruct (Inquiry.consent payload); [reflexivity|].
    simpl. intros H. contradiction H. reflexivity.
Qed.

Lemma submit_inquiry_consent_gate_witness :
  let w := World (Some DatabaseHandle) ∅
             {| SpecStore.collections := ∅; SpecStore.failure := None;
                SpecStore.next_id := 0%N |} [] in
  Inquiry.consent (sample_inquiry false) = false
  ∧ submit_inquiry SpecStore.adapter (sample_inquiry false) w
    = (Raise (HTTPException 400 (lit "Consent required for storing contact info.")), w).
Proof.
  split; [reflexivity|].
  apply (submit_inquiry_consent_gate SpecStore.adapter (sample_inquiry false)).
  reflexivity.
Defined.

(** C2: with [consent] true and a store handle, a [create_document] that
    returns gives [ok = true]; one that raises gives [ok = false] with a
    message made of the first 80 characters of the error; in both cases the
    handler returns, the call being its only effect. *)
Theorem submit_inquiry_acknowledges {S} (database : Adapter S)
    (payload : Inquiry.t) (w : world S) (h : Database) :
  Inquiry.consent payload = true →
  db w = Some h →
  match create_document database "inquiry" payload (store w) with
  | (Ok _, s') =>
      submit_inquiry database payload w
      = (Return thank_you, after_call w (CreateDocument "inquiry" payload) s')
  | (Fails str_e, s') =>
      submit_inquiry database payload w
      = (Return {| InquiryResponse.ok := false;
                   InquiryResponse.message :=
                     lit "Received but DB error: " ++ slice_to 80 str_e |},
         after_call w (CreateDocument "inquiry" payload) s')
  end
  ∧ InquiryResponse.ok thank_you = true.
Proof.
  intros Hc Hdb. open_world w. subst d.
  unfold submit_inquiry, call_create_document. rewrite Hc. cbv [negb]. step.
  split; [|reflexivity].
  destruct (create_document database "inquiry" payload s) as [[r|e] s']; reflexivity.
Qed.

Lemma submit_inquiry_acknowledges_witness :
  let w := World (Some DatabaseHandle) ∅ tt [] in
  Inquiry.consent (sample_inquiry true) = true
  ∧ db w = Some DatabaseHandle
  ∧ submit_inquiry (broken_adapter (lit "disk full")) (sample_inquiry true) w
    = (Return {| InquiryResponse.ok := false;
                 InquiryResponse.message := lit "Received but DB error: disk full" |},
       after_call w (CreateDocument "inquiry" (sample_inquiry true)) tt).
Proof.
  split; [reflexivity|]. split; [reflexivity|].
  exact (proj1 (submit_inquiry_acknowledges (broken_adapter (lit "disk full"))
                  (sample_inquiry true) (World (Some DatabaseHandle) ∅ tt [])
                  DatabaseHandle eq_refl eq_refl)).
Defined.

(** C9: with a null store handle, a submission with [consent] true is
    answered [ok = true] with the thank-you message although the world is
    left as it was: nothing is stored and the store is not called. *)
Theorem submit_inquiry_without_store {S} (database : Adapter S)
    (payload : Inquiry.t) (w : world S) :
  db w = None →
  Inquiry.consent payload = true →
  submit_inquiry database payload w = (Return thank_you, w)
  ∧ thank_you = {| InquiryResponse.ok := true;
                   InquiryResponse.message :=
                     lit "Thank you. Our team will contact you shortly." |}.
Proof.
  intros Hdb Hc. open_world w. subst d.
  unfold submit_inquiry. rewrite Hc. split; reflexivity.
Qed.

Lemma submit_inquiry_without_store_witness :
  let w := World None ∅
             {| SpecStore.collections := ∅; SpecStore.failure := None;
                SpecStore.next_id := 0%N |} [] in
  db w = None
  ∧ Inquiry.consent (sample_inquiry true) = true
  ∧ submit_inquiry SpecStore.adapter (sample_inquiry true) w = (Return thank_you, w)
  ∧ SpecStore.collections (store (submit_inquiry SpecStore.adapter (sample_inquiry true) w).2)
    !! "inquiry" = None.
Proof.
  split; [reflexivity|]. split; [reflexivity|].
  split; [|reflexivity].
  apply (submit_inquiry_without_store SpecStore.adapter (sample_inquiry true)); reflexivity.
Defined.

(** ** [GET /test] *)

Lemma slice_to_length {A} (n : nat) (l : list A) : (length (slice_to n l) ≤ n)%nat.
Proof. unfold slice_to. rewrite length_take. lia. Qed.

Lemma lookup_past_flags (key : string) (a b : value) (m : dict) :
  key ≠ "database_url" → key ≠ "database_name" →
  <["database_name" := a]> (<["database_url" := b]> m) !! key = m !! key.
Proof. intros H1 H2. rewrite !lookup_insert_ne by congruence. reflexivity. Qed.

(** C7: [GET /test] always returns a dictionary with the six diagnostic
    keys.  The two environment flags depend on their own variable only; the
    other fields depend on the store handle and its client only.  A failing
    attribute lookup or collection listing is reported under ["database"]
    with at most 80 characters of the error, and is never raised. *)
Theorem test_database_never_raises {S} (client : Client S) (w : world S) :
  let r := test_database client w in
  (∃ response, r.1 = Return response
     ∧ dom response = list_to_set ["backend"; "database"; "database_url";
                                   "database_name"; "connection_status"; "collections"])
  ∧ reported r "backend" = Some (VStr (check_mark ++ lit " Running"))
  ∧ reported r "database_url" = Some (flag (environ w !! "DATABASE_URL"))
  ∧ reported r "database_name" = Some (flag (environ w !! "DATABASE_NAME"))
  ∧ (∀ w' : world S, db w' = db w → store w' = store w →
       ∀ key, key ≠ "database_url" → key ≠ "database_name" →
       reported (test_database client w') key = reported r key)
  ∧ (db w = None →
       r.2 = w
       ∧ reported r "database" = Some (VStr (cross_mark ++ lit " Database not initialized"))
       ∧ reported r "connection_status" = Some (VStr (lit "Not Connected"))
       ∧ reported r "collections" = Some (VList []))
  ∧ (db w ≠ None →
       match getattr_name client (store w) with
       | Fails str_e =>
           r.2 = w
           ∧ reported r "database"
             = Some (VStr (cross_mark ++ lit " Error: " ++ slice_to 80 str_e))
           ∧ reported r "connection_status" = Some (VStr (lit "Not Connected"))
           ∧ reported r "collections" = Some (VList [])
       | Ok _ =>
           reported r "connection_status" = Some (VStr (lit "Connected"))
           ∧ match list_collection_names client (store w) with
             | (Ok collections, s') =>
                 r.2 = after_call w ListCollectionNames s'
                 ∧ reported r "database"
                   = Some (VStr (check_mark ++ lit " Connected & Working"))
                 ∧ reported r "collections"
                   = Some (VList (VStr <$> slice_to 10 collections))
             | (Fails str_e, s') =>
                 r.2 = after_call w ListCollectionNames s'
                 ∧ reported r "database"
                   = Some (VStr (warning_sign ++ lit " Connected but Error: "
                                   ++ slice_to 80 str_e))
                 ∧ (length (slice_to 80 str_e) ≤ 80)%nat
                 ∧ reported r "collections" = Some (VList [])
             end
       end).
Proof.
  destruct w as [d env s cs].
  unfold test_database, call_list_collection_names, getattr_db_name.
  destruct d as [h|]; step;
    [destruct (getattr_name client s) as [[nm|]|e] eqn:Hg; step;
     [destruct (list_collection_names client s) as [[cols|e] s'] eqn:Hl; step ..|]|];
    repeat split;
    lazymatch goal with
    | |- ∃ _, _ => eexists; split; [reflexivity | vm_compute; reflexivity]
    | |- ∀ _ : world _, _ =>
        intros w' Hd Hs key H1 H2; destruct w' as [d' env' s0 cs'];
        cbv [db store] in Hd, Hs; subst; step;
        repeat match goal with
               | H : _ = _ |- _ => rewrite H; step
               end;
        rewrite !lookup_past_flags by assumption; reflexivity
    | |- (_ ≤ _)%nat => apply slice_to_length
    | |- _ => first [reflexivity | discriminate | congruence]
    end.
Qed.

Lemma test_database_never_raises_witness :
  let w := World (Some DatabaseHandle) {[ "DATABASE_URL" := lit "mongodb://db" ]} tt [] in
  let r := test_database (broken_client (repeat 120%N 100)) w in
  db w ≠ None
  ∧ reported r "connection_status" = Some (VStr (lit "Connected"))
  ∧ r.2 = after_call w ListCollectionNames tt
  ∧ reported r "database"
    = Some (VStr (warning_sign ++ lit " Connected but Error: " ++ repeat 120%N 80)).
Proof.
  split; [discriminate|].
  pose proof (test_database_never_raises (broken_client (repeat 120%N 100))
                (World (Some DatabaseHandle) {[ "DATABASE_URL" := lit "mongodb://db" ]} tt []))
    as (_ & _ & _ & _ & _ & _ & H).
  specialize (H ltac:(discriminate)).
  destruct H as (H1 & H2 & H3 & _).
  split; [exact H1|]. split; [exact H2|]. exact H3.
Defined.

(** A working store: the attribute [db.name] is overwritten by the
    environment flag. *)
Example test_database_working :
  let w := World (Some DatabaseHandle) {[ "DATABASE_URL" := lit "mongodb://db" ]} tt [] in
  let r := test_database working_client w in
  reported r "database" = Some (VStr (check_mark ++ lit " Connected & Working"))
  ∧ reported r "database_url" = Some (VStr (check_mark ++ lit " Set"))
  ∧ reported r "database_name" = Some (VStr (cross_mark ++ lit " Not Set"))
  ∧ reported r "collections"
    = Some (str_list ["energyproduct"; "impactstory"; "office"; "inquiry"]).
Proof. repeat split; vm_compute; reflexivity. Qed.

(** ** [GET /api/solutions] with a store *)

Lemma lift_world {S A} (o : outcome A) (w : world S) : (lift o w).2 = w.
Proof. reflexivity. Qed.

(** C10: with a store handle, [GET /api/solutions] makes one query on
    ["energyproduct"], and what it answers is what [get_documents] gives for
    that very filter.  The filter has a ["sector"] entry exactly when
    [sector] is a non-empty string (an empty string is treated as an absent
    parameter) and a ["featured"] entry exactly when [featured] is given,
    [false] included; the filter has no other key. *)
Theorem list_solutions_filter {S} (database : Adapter S)
    (sector : option pystr) (featured : option bool) (w : world S) (h : Database) :
  db w = Some h →
  let filt := solutions_filter sector featured in
  calls (list_solutions database sector featured w).2
    = calls w ++ [GetDocuments "energyproduct" (Some filt) None]
  ∧ list_solutions database sector featured w
    = (let '(r, s') := get_documents database "energyproduct" (Some filt) None (store w) in
       (match r with
        | Ok docs => comprehension (λ d, EnergyProduct.new (strip_id d)) docs
        | Fails str_e => Raise (Exception str_e)
        end,
        after_call w (GetDocuments "energyproduct" (Some filt) None) s'))
  ∧ filt !! "sector" = match sector with
                       | Some (c :: s) => Some (VStr (c :: s))
                       | _ => None
                       end
  ∧ filt !! "featured" = VBool <$> featured
  ∧ (∀ key, key ≠ "sector" → key ≠ "featured" → filt !! key = None)
  ∧ solutions_filter (Some []) featured = solutions_filter None featured
  ∧ solutions_filter sector (Some false) !! "featured" = Some (VBool false).
Proof.
  intros Hdb filt. destruct w as [d env s cs]. cbv [db] in Hdb. subst d.
  split; [|split].
  - unfold list_solutions, call_get_documents. step. fold filt.
    destruct (get_documents database "energyproduct" (Some filt) None s)
      as [[docs|e] s']; reflexivity.
  - unfold list_solutions, call_get_documents. step. fold filt.
    destruct (get_documents database "energyproduct" (Some filt) None s)
      as [[docs|e] s']; reflexivity.
  - subst filt. unfold solutions_filter.
    destruct sector as [[|c s0]|], featured as [b|]; cbn [truthy fmap option_fmap option_map];
      repeat split; try reflexivity;
      intros key H1 H2; rewrite ?lookup_insert_ne by congruence;
      apply lookup_empty.
Qed.

Lemma list_solutions_filter_witness :
  let w := World (Some DatabaseHandle) ∅ featured_and_not [] in
  db w = Some DatabaseHandle
  ∧ calls (list_solutions SpecStore.adapter (Some []) (Some false) w).2
    = [GetDocuments "energyproduct" (Some {[ "featured" := VBool false ]}) None]
  ∧ (list_solutions SpecStore.adapter (Some []) (Some false) w).1
    = Return [ {| EnergyProduct.name := lit "Turbine";
                  EnergyProduct.sector := lit "solar";
                  EnergyProduct.summary := lit "A short summary.";
                  EnergyProduct.specs := None;
                  EnergyProduct.image := None;
                  EnergyProduct.featured := false |} ].
Proof.
  split; [reflexivity|].
  split; [|reflexivity].
  exact (proj1 (list_solutions_filter SpecStore.adapter (Some []) (Some false)
                  (World (Some DatabaseHandle) ∅ featured_and_not []) DatabaseHandle
                  eq_refl)).
Defined.

(** ** The read endpoints when the query fails *)

(** C4, as stated, fails: with a store handle and a [get_documents] that
    raises, each of the three read endpoints raises that exception instead
    of returning data. *)
Lemma read_errors_are_not_caught :
  let database := broken_adapter (lit "connection refused") in
  let w := World (Some DatabaseHandle) ∅ tt [] in
  (list_solutions database None None w).1 = Raise (Exception (lit "connection refused"))
  ∧ (list_stories database None w).1 = Raise (Exception (lit "connection refused"))
  ∧ (list_offices database lower_domain w).1 = Raise (Exception (lit "connection refused"))
  ∧ ¬ (∃ products, (list_solutions database None None w).1 = Return products).
Proof.
  repeat split; try reflexivity.
  intros [products H]. vm_compute in H. discriminate H.
Qed.

(** C4, amended: with a store handle, when the query of a read endpoint
    raises, the handler does not catch it; the exception leaves
    [list_solutions], [list_stories] and [list_offices] after that one call,
    and no default data is returned. *)
Theorem read_errors_propagate {S} (database : Adapter S) (email_str : pystr → option pystr)
    (w : world S) (h : Database) (str_e : pystr) :
  db w = Some h →
  (∀ sector featured,
     let query := GetDocuments "energyproduct" (Some (solutions_filter sector featured)) None in
     (get_documents database "energyproduct" (Some (solutions_filter sector featured)) None
        (store w)).1 = Fails str_e →
     (list_solutions database sector featured w).1 = Raise (Exception str_e)
     ∧ calls (list_solutions database sector featured w).2 = calls w ++ [query])
  ∧ (∀ limit,
     let query := GetDocuments "impactstory" (Some ∅) (Some (default 6 limit)) in
     (get_documents database "impactstory" (Some ∅) (Some (default 6 limit))
        (store w)).1 = Fails str_e →
     (list_stories database limit w).1 = Raise (Exception str_e)
     ∧ calls (list_stories database limit w).2 = calls w ++ [query])
  ∧ ((get_documents database "office" None None (store w)).1 = Fails str_e →
     (list_offices database email_str w).1 = Raise (Exception str_e)
     ∧ calls (list_offices database email_str w).2
       = calls w ++ [GetDocuments "office" None None]).
Proof.
  intros Hdb. destruct w as [d env s cs]. cbv [db store] in *. subst d.
  unfold list_solutions, list_stories, list_offices, call_get_documents.
  repeat split; step;
    match goal with
    | Hfail : (get_documents database ?c ?f ?l s).1 = _ |- _ =>
        destruct (get_documents database c f l s) as [[docs|e] s'];
        cbv [fst] in Hfail; [discriminate Hfail | injection Hfail as ->; reflexivity]
    end.
Qed.

Lemma read_errors_propagate_witness :
  let database := broken_adapter (lit "timeout") in
  let w := World (Some DatabaseHandle) ∅ tt [] in
  db w = Some DatabaseHandle
  ∧ (get_documents database "office" None None (store w)).1 = Fails (lit "timeout")
  ∧ (list_offices database lower_domain w).1 = Raise (Exception (lit "timeout")).
Proof.
  split; [reflexivity|]. split; [reflexivity|].
  exact (proj1 (proj2 (proj2 (read_errors_propagate (broken_adapter (lit "timeout"))
           lower_domain (World (Some DatabaseHandle) ∅ tt []) DatabaseHandle
           (lit "timeout") eq_refl)) eq_refl)).
Defined.

(** ** Against the store of the specification *)

Lemma matches_empty (d : dict) : SpecStore.matches ∅ d = true.
Proof. unfold SpecStore.matches. rewrite map_to_list_empty. reflexivity. Qed.

Lemma filter_matches_empty (docs : list dict) :
  List.filter (SpecStore.matches ∅) docs = docs.
Proof.
  induction docs as [|d docs IH]; [reflexivity|].
  simpl. rewrite matches_empty, IH. reflexivity.
Qed.

(** C5: with a healthy store whose ["impactstory"] collection holds five
    documents, [GET /api/stories] with [limit=2] returns exactly two
    records: the first two documents of the collection, in that order. *)
Theorem list_stories_limit_two (w : world SpecStore.t) (h : Database)
    (d1 d2 d3 d4 d5 : dict) (s1 s2 : ImpactStory.t) :
  db w = Some h →
  SpecStore.failure (store w) = None →
  SpecStore.collections (store w) !! "impactstory" = Some [d1; d2; d3; d4; d5] →
  ImpactStory.new (strip_id d1) = Return s1 →
  ImpactStory.new (strip_id d2) = Return s2 →
  list_stories SpecStore.adapter (Some 2) w
  = (Return [s1; s2],
     after_call w (GetDocuments "impactstory" (Some ∅) (Some 2)) (store w)).
Proof.
  intros Hdb Hok Hdocs H1 H2. destruct w as [d env s cs]. cbv [db store] in *. subst d.
  unfold list_stories, call_get_documents. step.
  cbv [SpecStore.adapter get_documents SpecStore.get_documents].
  rewrite Hok, Hdocs. cbv [default from_option id]. rewrite filter_matches_empty.
  change (take (Z.to_nat 2) [d1; d2; d3; d4; d5]) with [d1; d2].
  cbn [comprehension]. rewrite H1, H2. reflexivity.
Qed.

Lemma list_stories_limit_two_witness :
  let w := World (Some DatabaseHandle) ∅ five_stories [] in
  list_stories SpecStore.adapter (Some 2) w
  = (Return [story "one"; story "two"],
     after_call w (GetDocuments "impactstory" (Some ∅) (Some 2)) five_stories).
Proof.
  exact (list_stories_limit_two (World (Some DatabaseHandle) ∅ five_stories [])
           DatabaseHandle (story_doc 1 "one") (story_doc 2 "two") (story_doc 3 "three")
           (story_doc 4 "four") (story_doc 5 "five") (story "one") (story "two")
           eq_refl eq_refl eq_refl eq_refl eq_refl).
Defined.

(** What [submit_inquiry] leaves in a healthy store: the validated payload,
    field for field, under a store-assigned identifier. *)
Lemma submit_inquiry_stores_payload (w : world SpecStore.t) (h : Database)
    (payload : Inquiry.t) :
  db w = Some h →
  SpecStore.failure (store w) = None →
  Inquiry.consent payload = true →
  let r := submit_inquiry SpecStore.adapter payload w in
  let before := default [] (SpecStore.collections (store w) !! "inquiry") in
  r.1 = Return thank_you
  ∧ ∃ stored : dict,
      SpecStore.collections (store r.2) !! "inquiry" = Some (before ++ [stored])
      ∧ (SpecStore.get_documents "inquiry" None None (store r.2)).1 = Ok (before ++ [stored])
      ∧ stored !! "name" = Some (VStr (Inquiry.name payload))
      ∧ stored !! "email" = Some (VStr (Inquiry.email payload))
      ∧ stored !! "company" = Some (from_option VStr VNone (Inquiry.company payload))
      ∧ stored !! "topic" = Some (VStr (Inquiry.topic payload))
      ∧ stored !! "message" = Some (VStr (Inquiry.message payload))
      ∧ stored !! "consent" = Some (VBool true)
      ∧ strip_id stored = SpecStore.model_dump payload.
Proof.
  intros Hdb Hok Hc r before. subst r before.
  destruct w as [d env s cs]. cbv [db store] in *. subst d.
  destruct payload as [name email company topic message consent].
  cbv [Inquiry.consent] in Hc. subst consent.
  unfold submit_inquiry, call_create_document.
  cbv [Inquiry.consent negb]. step.
  cbv [SpecStore.adapter create_document SpecStore.create_document].
  rewrite Hok. step. split; [reflexivity|].
  eexists. split; [apply lookup_insert_eq|].
  split.
  { cbv [SpecStore.get_documents SpecStore.failure SpecStore.collections].
    rewrite lookup_insert_eq. cbv [default from_option id fst].
    rewrite filter_matches_empty. reflexivity. }
  repeat split; reflexivity.
Qed.


(** * Further properties of the handlers and the schemas *)

(** ** List comprehensions *)

Lemma comprehension_Return {A B} (f : A → outcome B) (xs : list A) (ys : list B) :
  comprehension f xs = Return ys ↔ Forall2 (λ x y, f x = Return y) xs ys.
Proof.
  revert ys. induction xs as [|x xs IH]; intros ys; simpl.
  - split.
    + intros H. injection H as <-. constructor.
    + intros H. inversion H. reflexivity.
  - unfold mbind, outcome_bind, mret, outcome_ret.
    destruct (f x) as [y|e] eqn:Hx.
    + destruct (comprehension f xs) as [ys'|e] eqn:Hxs.
      * split.
        -- intros H. injection H as <-. constructor; [exact Hx|]. apply IH. reflexivity.
        -- intros H. inversion H as [|? y' ? ys'' Hy Hys]; subst.
           apply IH in Hys. congruence.
      * split; [discriminate|].
        intros H. inversion H as [|? y' ? ys'' Hy Hys]; subst.
        apply IH in Hys. discriminate Hys.
    + split; [discriminate|].
      intros H. inversion H as [|? y' ? ys'' Hy Hys]; subst. congruence.
Qed.

Lemma comprehension_poisoned {A B} (f : A → outcome B) (e : exn) (xs : list A) (x : A) :
  x ∈ xs → f x = Raise e → (∀ x' e', f x' = Raise e' → e' = e) →
  comprehension f xs = Raise e.
Proof.
  intros Hin Hx Hall. induction xs as [|x0 xs IH]; [inversion Hin|].
  simpl. unfold mbind, outcome_bind, mret, outcome_ret.
  destruct (f x0) as [y|e0] eqn:H0.
  - inversion Hin; subst; [congruence|]. rewrite IH by assumption. reflexivity.
  - f_equal. eapply Hall. exact H0.
Qed.

(** ** Handlers that only look *)

Lemma pure_lift {S A} (o : outcome A) : pure (S:=S) (lift o).
Proof. intros w. reflexivity. Qed.

Lemma pure_mret {S A} (a : A) : pure (S:=S) (mret a).
Proof. intros w. reflexivity. Qed.

Lemma pure_bind {S A B} (m : M S A) (k : A → M S B) :
  pure m → (∀ a, pure (k a)) → pure (m ≫= k).
Proof.
  intros Hm Hk w. unfold mbind, M_bind. specialize (Hm w).
  destruct (m w) as [[a|e] w']; simpl in Hm; subst w'; [apply Hk | reflexivity].
Qed.

Lemma bind_get_db {S A} (k : option Database → M S A) (w : world S) :
  (get_db ≫= k) w = k (db w) w.
Proof. reflexivity. Qed.

(** ** The read endpoints without a store *)

(** X1: with a null store handle, [GET /api/stories] returns the same two
    fixed stories whatever [limit] is, absent, zero and negative included,
    and leaves the world as it was. *)
Theorem list_stories_without_store {S} (database : Adapter S)
    (limit : option Z) (w : world S) :
  db w = None →
  list_stories database limit w = (Return fixed_stories, w).
Proof.
  intros Hdb. open_world w. subst d. destruct limit; vm_compute; reflexivity.
Qed.

Lemma list_stories_without_store_witness :
  let w := World None ∅ tt [] in
  db w = None
  ∧ list_stories (broken_adapter (lit "down")) (Some 0) w = (Return fixed_stories, w)
  ∧ length fixed_stories = 2%nat.
Proof.
  split; [reflexivity|]. split; [|reflexivity].
  apply (list_stories_without_store (broken_adapter (lit "down")) (Some 0)
           (World None ∅ tt [])).
  reflexivity.
Defined.

(** X2: with a null store handle, [GET /api/offices] builds its three fixed
    offices through the [Office] constructor: when [EmailStr] accepts the
    three addresses it returns the three offices with the addresses as
    [EmailStr] gives them back, and it raises [ValidationError] otherwise;
    either way the world is left as it was. *)
Theorem list_offices_without_store {S} (database : Adapter S)
    (email_str : pystr → option pystr) (w : world S) :
  db w = None →
  list_offices database email_str w
  = (match email_str (lit "na@cleantech.example"),
           email_str (lit "emea@cleantech.example"),
           email_str (lit "apac@cleantech.example") with
     | Some na, Some emea, Some apac =>
         Return [ fixed_office "North America" "San Francisco" na;
                  fixed_office "EMEA" "Munich" emea;
                  fixed_office "APAC" "Singapore" apac ]
     | _, _, _ => Raise (ValidationError "Office")
     end, w).
Proof.
  intros Hdb. open_world w. subst d.
  unfold list_offices. step.
  assert (Hnew : ∀ region city email : string,
    Office.new email_str {[ "region" := VStr (lit region); "city" := VStr (lit city);
                            "email" := VStr (lit email) ]}
    = match email_str (lit email) with
      | Some address => Return (fixed_office region city address)
      | None => Raise (ValidationError "Office")
      end).
  { intros region city email. unfold Office.new, required_str, optional_str, optional_email.
    assert (Hr : ({[ "region" := VStr (lit region); "city" := VStr (lit city);
                     "email" := VStr (lit email) ]} : dict) !! "region"
                 = Some (VStr (lit region))) by reflexivity.
    assert (Hc : ({[ "region" := VStr (lit region); "city" := VStr (lit city);
                     "email" := VStr (lit email) ]} : dict) !! "city"
                 = Some (VStr (lit city))) by reflexivity.
    assert (Ha : ({[ "region" := VStr (lit region); "city" := VStr (lit city);
                     "email" := VStr (lit email) ]} : dict) !! "address" = None)
      by reflexivity.
    assert (Hp : ({[ "region" := VStr (lit region); "city" := VStr (lit city);
                     "email" := VStr (lit email) ]} : dict) !! "phone" = None)
      by reflexivity.
    assert (He : ({[ "region" := VStr (lit region); "city" := VStr (lit city);
                     "email" := VStr (lit email) ]} : dict) !! "email"
                 = Some (VStr (lit email))) by reflexivity.
    rewrite Hr, Hc, Ha, Hp, He.
    cbv [mbind mret outcome_bind outcome_ret].
    destruct (email_str (lit email)); reflexivity. }
  rewrite !Hnew.
  destruct (email_str (lit "na@cleantech.example")),
           (email_str (lit "emea@cleantech.example")),
           (email_str (lit "apac@cleantech.example")); reflexivity.
Qed.

Lemma list_offices_without_store_witness :
  let w := World None ∅ tt [] in
  db w = None
  ∧ list_offices (broken_adapter (lit "down")) lower_domain w = (Return fixed_offices, w).
Proof.
  split; [reflexivity|].
  exact (list_offices_without_store (broken_adapter (lit "down")) lower_domain
           (World None ∅ tt []) eq_refl).
Defined.

(** ** What the constructors accept *)

Lemma comprehension_Raise {A B} (f : A → outcome B) (xs : list A) (e : exn) :
  comprehension f xs = Raise e → ∃ x, x ∈ xs ∧ f x = Raise e.
Proof.
  induction xs as [|x xs IH]; simpl; [discriminate|].
  unfold mbind, outcome_bind, mret, outcome_ret.
  destruct (f x) as [y|e0] eqn:Hx.
  - destruct (comprehension f xs) as [ys|e1]; [discriminate|].
    intros H. injection H as ->. destruct (IH eq_refl) as (x' & Hin & Hx').
    exists x'. split; [right; exact Hin | exact Hx'].
  - intros H. injection H as ->. exists x. split; [left | exact Hx].
Qed.

Section FieldFacts.
Variable model : string.
Variable kwargs : dict.

Lemma required_str_Return field s :
  required_str model kwargs field = Return s ↔ kwargs !! field = Some (VStr s).
Proof.
  unfold required_str. destruct (kwargs !! field) as [[]|]; split; congruence.
Qed.

Lemma required_str_Raise field e :
  required_str model kwargs field = Raise e → e = ValidationError model.
Proof. unfold required_str. destruct (kwargs !! field) as [[]|]; congruence. Qed.

Lemma optional_str_Return field o :
  optional_str model kwargs field = Return o ↔
  match kwargs !! field with
  | None | Some VNone => o = None
  | Some (VStr s) => o = Some s
  | _ => False
  end.
Proof.
  unfold optional_str. destruct (kwargs !! field) as [[]|]; split;
    try congruence; try contradiction; intros ->; reflexivity.
Qed.

Lemma optional_str_Raise field e :
  optional_str model kwargs field = Raise e → e = ValidationError model.
Proof. unfold optional_str. destruct (kwargs !! field) as [[]|]; congruence. Qed.

Lemma optional_str_list_Raise field e :
  optional_str_list model kwargs field = Raise e → e = ValidationError model.
Proof.
  unfold optional_str_list. destruct (kwargs !! field) as [[]|]; try congruence.
  unfold mbind, outcome_bind, mret, outcome_ret.
  destruct (comprehension (as_str model) l) as [l'|e'] eqn:Hl; [discriminate|].
  intros H. injection H as ->. apply comprehension_Raise in Hl as (v & _ & Hv).
  destruct v; simpl in Hv; congruence.
Qed.

Lemma bool_or_Return default field b :
  bool_or model kwargs default field = Return b ↔
  match kwargs !! field with
  | None => b = default
  | Some v => lax_bool v = Some b
  end.
Proof.
  unfold bool_or. destruct (kwargs !! field) as [v|].
  - destruct (lax_bool v); split; congruence.
  - split; congruence.
Qed.

Lemma bool_or_Raise default field e :
  bool_or model kwargs default field = Raise e → e = ValidationError model.
Proof.
  unfold bool_or. destruct (kwargs !! field) as [v|]; [|discriminate].
  destruct (lax_bool v); congruence.
Qed.

Lemma optional_email_Return email_str field o :
  optional_email model kwargs email_str field = Return o →
  match o with
  | Some address =>
      ∃ s, kwargs !! field = Some (VStr s) ∧ email_str s = Some address
  | None => True
  end.
Proof.
  unfold optional_email. destruct (kwargs !! field) as [[]|]; try congruence;
    try (intros H; injection H as <-; exact I).
  destruct (email_str s) as [address|] eqn:Hs; [|discriminate].
  intros H; injection H as <-. exists s. split; [reflexivity | exact Hs].
Qed.

Lemma optional_email_Raise email_str field e :
  optional_email model kwargs email_str field = Raise e → e = ValidationError model.
Proof.
  unfold optional_email. destruct (kwargs !! field) as [[]|]; try congruence.
  destruct (email_str s); congruence.
Qed.

Lemma required_email_Return email_str field address :
  required_email model kwargs email_str field = Return address ↔
  ∃ s, kwargs !! field = Some (VStr s) ∧ email_str s = Some address.
Proof.
  unfold required_email. destruct (kwargs !! field) as [[]|];
    try (split; [discriminate | intros (? & ? & ?); congruence]).
  destruct (email_str s) as [a|] eqn:Hs; split.
  - intros H; injection H as <-. exists s. split; [reflexivity | exact Hs].
  - intros (s0 & H & H0). congruence.
  - discriminate.
  - intros (s0 & H & H0). congruence.
Qed.

Lemma optional_int_between_Return int_of_str lo hi field o :
  optional_int_between model kwargs int_of_str lo hi field = Return o →
  match o with
  | Some n => lo ≤ n ≤ hi
  | None => kwargs !! field = None ∨ kwargs !! field = Some VNone
  end.
Proof.
  unfold optional_int_between. destruct (kwargs !! field) as [v|];
    [|intros H; injection H as <-; auto].
  destruct v; try (intros H; injection H as <-; auto);
    cbn [lax_int];
    repeat match goal with
           | |- context [match ?x with Some _ => _ | None => _ end] =>
               destruct x; try discriminate
           | |- context [if ?c then _ else _] =>
               let E := fresh "E" in destruct c eqn:E; try discriminate
           end;
    try (intros H; injection H as <-;
         repeat match goal with
                | E : (_ && _) = true |- _ => apply andb_true_iff in E as [? ?]
                | E : (_ <=? _) = true |- _ => apply Z.leb_le in E
                end; lia).
Qed.
End FieldFacts.

(** Case analysis on the field validations of a constructor. *)
Ltac fields :=
  cbv [mbind mret outcome_bind outcome_ret];
  repeat match goal with
         | |- context [match ?v with Return _ => _ | Raise _ => _ end] =>
             let H := fresh "Hf" in destruct v eqn:H
         end.

Ltac raised :=
  repeat match goal with
         | H : required_str _ _ _ = Raise _ |- _ => apply required_str_Raise in H
         | H : optional_str _ _ _ = Raise _ |- _ => apply optional_str_Raise in H
         | H : optional_str_list _ _ _ = Raise _ |- _ => apply optional_str_list_Raise in H
         | H : bool_or _ _ _ _ = Raise _ |- _ => apply bool_or_Raise in H
         | H : optional_email _ _ _ _ = Raise _ |- _ => apply optional_email_Raise in H
         end.

Lemma EnergyProduct_new_Raise (kwargs : dict) (e : exn) :
  EnergyProduct.new kwargs = Raise e → e = ValidationError "EnergyProduct".
Proof.
  unfold EnergyProduct.new. fields; try discriminate;
    intros H; injection H as <-; raised; assumption.
Qed.

Lemma ImpactStory_new_Raise (kwargs : dict) (e : exn) :
  ImpactStory.new kwargs = Raise e → e = ValidationError "ImpactStory".
Proof.
  unfold ImpactStory.new. fields; try discriminate;
    intros H; injection H as <-; raised; assumption.
Qed.

Lemma Office_new_Raise (email_str : pystr → option pystr) (kwargs : dict) (e : exn) :
  Office.new email_str kwargs = Raise e → e = ValidationError "Office".
Proof.
  unfold Office.new. fields; try discriminate;
    intros H; injection H as <-; raised; assumption.
Qed.

Lemma EnergyProduct_new_Return (kwargs : dict) (p : EnergyProduct.t) :
  EnergyProduct.new kwargs = Return p →
  kwargs !! "name" = Some (VStr (EnergyProduct.name p))
  ∧ kwargs !! "sector" = Some (VStr (EnergyProduct.sector p))
  ∧ kwargs !! "summary" = Some (VStr (EnergyProduct.summary p))
  ∧ optional_str "EnergyProduct" kwargs "image" = Return (EnergyProduct.image p)
  ∧ bool_or "EnergyProduct" kwargs false "featured" = Return (EnergyProduct.featured p).
Proof.
  unfold EnergyProduct.new. fields; try discriminate.
  intros H; injection H as <-. simpl.
  repeat split; try (eapply (proj1 (required_str_Return _ _ _ _)); eassumption); reflexivity.
Qed.

Lemma ImpactStory_new_Return (kwargs : dict) (s : ImpactStory.t) :
  ImpactStory.new kwargs = Return s →
  kwargs !! "title" = Some (VStr (ImpactStory.title s))
  ∧ kwargs !! "summary" = Some (VStr (ImpactStory.summary s)).
Proof.
  unfold ImpactStory.new. fields; try discriminate.
  intros H; injection H as <-. simpl.
  split; eapply (proj1 (required_str_Return _ _ _ _)); eassumption.
Qed.

Lemma Office_new_Return (email_str : pystr → option pystr) (kwargs : dict) (o : Office.t) :
  Office.new email_str kwargs = Return o →
  kwargs !! "region" = Some (VStr (Office.region o))
  ∧ kwargs !! "city" = Some (VStr (Office.city o))
  ∧ match Office.email o with
    | Some address =>
        ∃ s, kwargs !! "email" = Some (VStr s) ∧ email_str s = Some address
    | None => True
    end.
Proof.
  unfold Office.new. fields; try discriminate.
  intros H; injection H as <-. simpl.
  repeat split; try (eapply (proj1 (required_str_Return _ _ _ _)); eassumption).
  eapply optional_email_Return. eassumption.
Qed.

Lemma strip_id_lookup (d : dict) (key : string) :
  key ≠ "_id" → strip_id d !! key = d !! key.
Proof. intros H. unfold strip_id. apply lookup_delete_ne. congruence. Qed.

(** ** The read endpoints with a store *)



(** X4: with a store handle, one returned document that lacks a required
    field makes the whole request fail with [ValidationError]: the document
    is not skipped and no partial list is returned. *)
Theorem missing_field_fails_request {S} (database : Adapter S)
    (email_str : pystr → option pystr) (w : world S) (h : Database)
    (docs : list dict) (d : dict) (s' : S) :
  db w = Some h →
  d ∈ docs →
  (∀ sector featured,
     get_documents database "energyproduct" (Some (solutions_filter sector featured)) None
       (store w) = (Ok docs, s') →
     d !! "name" = None ∨ d !! "sector" = None ∨ d !! "summary" = None →
     (list_solutions database sector featured w).1
     = Raise (ValidationError "EnergyProduct"))
  ∧ (∀ limit,
     get_documents database "impactstory" (Some ∅) (Some (default 6 limit)) (store w)
       = (Ok docs, s') →
     d !! "title" = None ∨ d !! "summary" = None →
     (list_stories database limit w).1 = Raise (ValidationError "ImpactStory"))
  ∧ (get_documents database "office" None None (store w) = (Ok docs, s') →
     d !! "region" = None ∨ d !! "city" = None →
     (list_offices database email_str w).1 = Raise (ValidationError "Office")).
Proof.
  intros Hdb Hin. destruct w as [d0 env s cs]. cbv [db store] in *. subst d0.
  unfold list_solutions, list_stories, list_offices, call_get_documents.
  repeat split; step; intros;
    match goal with
    | Hq : get_documents _ _ _ _ _ = _ |- _ => rewrite Hq
    end; cbv [fst].
  - apply comprehension_poisoned with (x := d); [exact Hin| |].
    + destruct (EnergyProduct.new (strip_id d)) as [p|e] eqn:Hp.
      * apply EnergyProduct_new_Return in Hp as (Hn & Hs & Hm & _).
        rewrite strip_id_lookup in Hn, Hs, Hm by discriminate.
        intuition congruence.
      * f_equal. eapply EnergyProduct_new_Raise. exact Hp.
    + intros x' e' He'. eapply EnergyProduct_new_Raise. exact He'.
  - apply comprehension_poisoned with (x := d); [exact Hin| |].
    + destruct (ImpactStory.new (strip_id d)) as [p|e] eqn:Hp.
      * apply ImpactStory_new_Return in Hp as (Hn & Hs).
        rewrite strip_id_lookup in Hn, Hs by discriminate.
        intuition congruence.
      * f_equal. eapply ImpactStory_new_Raise. exact Hp.
    + intros x' e' He'. eapply ImpactStory_new_Raise. exact He'.
  - apply comprehension_poisoned with (x := d); [exact Hin| |].
    + destruct (Office.new email_str (strip_id d)) as [p|e] eqn:Hp.
      * apply Office_new_Return in Hp as (Hn & Hs & _).
        rewrite strip_id_lookup in Hn, Hs by discriminate.
        intuition congruence.
      * f_equal. eapply Office_new_Raise. exact Hp.
    + intros x' e' He'. eapply Office_new_Raise. exact He'.
Qed.

Lemma missing_field_fails_request_witness :
  let docs := [product_doc 1 "Inverter"; nameless_doc; product_doc 2 "Turbine"] in
  let w := World (Some DatabaseHandle) ∅ tt [] in
  db w = Some DatabaseHandle
  ∧ nameless_doc ∈ docs
  ∧ nameless_doc !! "name" = None
  ∧ (list_solutions (constant_adapter docs) None None w).1
    = Raise (ValidationError "EnergyProduct").
Proof.
  split; [reflexivity|]. split; [right; left|]. split; [reflexivity|].
  exact (proj1 (missing_field_fails_request
                  (constant_adapter [product_doc 1 "Inverter"; nameless_doc;
                                     product_doc 2 "Turbine"])
                  lower_domain (World (Some DatabaseHandle) ∅ tt []) DatabaseHandle _
                  nameless_doc tt eq_refl
                  (list_elem_of_further _ _ _ (list_elem_of_here _ _)))
           None None eq_refl (or_introl eq_refl)).
Defined.

(** X5: a read endpoint never writes and never touches the handle or the
    environment: with a store handle it makes exactly one call, its query;
    without one it makes none and leaves the store as it was. *)
Theorem read_handlers_only_query {S} (database : Adapter S)
    (email_str : pystr → option pystr) (w : world S) :
  let asked (w' : world S) (query : call) :=
    db w' = db w ∧ environ w' = environ w
    ∧ calls w' = calls w ++ match db w with Some _ => [query] | None => [] end
    ∧ (db w = None → store w' = store w) in
  (∀ sector featured,
     asked (list_solutions database sector featured w).2
       (GetDocuments "energyproduct" (Some (solutions_filter sector featured)) None))
  ∧ (∀ limit,
     asked (list_stories database limit w).2
       (GetDocuments "impactstory" (Some ∅) (Some (default 6 limit))))
  ∧ asked (list_offices database email_str w).2 (GetDocuments "office" None None).
Proof.
  cbv zeta. destruct w as [d env s cs]. destruct d as [h|].
  - unfold list_solutions, list_stories, list_offices, call_get_documents.
    repeat split; step; try discriminate;
      match goal with
      | |- context [get_documents database ?c ?f ?l s] =>
          destruct (get_documents database c f l s) as [[docs|e] s']
      end; reflexivity.
  - unfold list_solutions, list_stories, list_offices.
    split; [|split]; intros; rewrite bind_get_db; cbn [db];
      match goal with
      | |- context [(?m (World None env s cs)).2] =>
          assert (Hp : pure m)
            by (repeat (apply pure_bind; [apply pure_lift | intros ?]); apply pure_mret);
          rewrite !(Hp _)
      end; cbn [db environ calls store]; rewrite app_nil_r; auto.
Qed.

(** ** More on [POST /api/inquiry] *)

(** X6: [submit_inquiry] raises nothing but the [HTTPException] of status
    400, and raises it exactly when [consent] is false; when it returns,
    [ok] is false exactly when a store handle exists and the write raised;
    it makes at most one store call, the write of the payload to
    ["inquiry"]. *)
Theorem submit_inquiry_outcomes {S} (database : Adapter S)
    (payload : Inquiry.t) (w : world S) :
  let r := submit_inquiry database payload w in
  (∀ e, r.1 = Raise e →
     e = HTTPException 400 (lit "Consent required for storing contact info.")
     ∧ Inquiry.consent payload = false)
  ∧ (∀ response, r.1 = Return response →
     Inquiry.consent payload = true
     ∧ (InquiryResponse.ok response = false
        ↔ db w ≠ None
          ∧ ∃ str_e, (create_document database "inquiry" payload (store w)).1
                     = Fails str_e))
  ∧ (calls r.2 = calls w
     ∨ calls r.2 = calls w ++ [CreateDocument "inquiry" payload]).
Proof.
  cbv zeta. destruct w as [d env s cs].
  unfold submit_inquiry, call_create_document.
  destruct (Inquiry.consent payload); cbv [negb]; step.
  - destruct d as [h|].
    + destruct (create_document database "inquiry" payload s) as [[stored|str_e] s'];
        cbv [fst]; (split; [discriminate|]); (split; [|right; reflexivity]);
        intros response H; injection H as <-; (split; [reflexivity|]); split.
      * discriminate.
      * intros (_ & str_e & He). discriminate He.
      * intros _. split; [discriminate|]. exists str_e. reflexivity.
      * reflexivity.
    + split; [discriminate|]. split; [|left; reflexivity].
      intros response H; injection H as <-. split; [reflexivity|]. split.
      * discriminate.
      * intros (Hd & _). contradiction Hd. reflexivity.
  - split; [|split; [discriminate | left; reflexivity]].
    intros e H. injection H as <-. split; reflexivity.
Qed.

(** X7: whatever the store error is, the message of a response has at most
    103 characters: the 23 of the fixed prefix and at most 80 of the
    error. *)
Theorem submit_inquiry_message_bounded {S} (database : Adapter S)
    (payload : Inquiry.t) (w : world S) (response : InquiryResponse.t) :
  (submit_inquiry database payload w).1 = Return response →
  (length (InquiryResponse.message response) ≤ 103)%nat.
Proof.
  destruct w as [d env s cs].
  unfold submit_inquiry, call_create_document.
  destruct (Inquiry.consent payload); cbv [negb]; step; [|discriminate].
  assert (Hthanks : (length (InquiryResponse.message thank_you) ≤ 103)%nat)
    by (vm_compute; lia).
  destruct d as [h|].
  - destruct (create_document database "inquiry" payload s) as [[stored|str_e] s'];
      intros H; injection H as <-; [exact Hthanks|].
    change (InquiryResponse.message _)
      with (lit "Received but DB error: " ++ slice_to 80 str_e).
    rewrite length_app.
    pose proof (slice_to_length 80 str_e).
    change (length (lit "Received but DB error: ")) with 23%nat. lia.
  - intros H; injection H as <-. exact Hthanks.
Qed.

Lemma submit_inquiry_message_bounded_witness :
  let w := World (Some DatabaseHandle) ∅ tt [] in
  let r := submit_inquiry (broken_adapter (repeat 120%N 500)) (sample_inquiry true) w in
  r.1 = Return {| InquiryResponse.ok := false;
                  InquiryResponse.message :=
                    lit "Received but DB error: " ++ repeat 120%N 80 |}
  ∧ (length (lit "Received but DB error: " ++ repeat 120%N 80) ≤ 103)%nat.
Proof.
  split; [reflexivity|].
  exact (submit_inquiry_message_bounded (broken_adapter (repeat 120%N 500))
           (sample_inquiry true) (World (Some DatabaseHandle) ∅ tt []) _ eq_refl).
Defined.

Lemma Inquiry_new_Return (email_str : pystr → option pystr) (kwargs : dict)
    (p : Inquiry.t) :
  Inquiry.new email_str kwargs = Return p →
  kwargs !! "name" = Some (VStr (Inquiry.name p))
  ∧ (∃ s, kwargs !! "email" = Some (VStr s) ∧ email_str s = Some (Inquiry.email p))
  ∧ optional_str "Inquiry" kwargs "company" = Return (Inquiry.company p)
  ∧ kwargs !! "topic" = Some (VStr (Inquiry.topic p))
  ∧ kwargs !! "message" = Some (VStr (Inquiry.message p))
  ∧ bool_or "Inquiry" kwargs false "consent" = Return (Inquiry.consent p).
Proof.
  unfold Inquiry.new. fields; try discriminate.
  intros H; injection H as <-. simpl.
  repeat split;
    try (eapply (proj1 (required_str_Return _ _ _ _)); eassumption);
    try (eapply (proj1 (required_email_Return _ _ _ _ _)); eassumption);
    reflexivity.
Qed.

Lemma post_inquiry_accepted {S} (database : Adapter S)
    (email_str : pystr → option pystr) (body : dict) (payload : Inquiry.t) (w : world S) :
  Inquiry.new email_str body = Return payload →
  post_inquiry database email_str body w = submit_inquiry database payload w.
Proof. intros H. unfold post_inquiry. step. rewrite H. reflexivity. Qed.

(** X8: consent is off unless the submission turns it on.  A request body
    that the [Inquiry] model accepts and whose ["consent"] is absent, or is
    read as false ([False], 0, ["no"], ["off"] and the like), is answered
    with status 400 and nothing is written; one whose ["consent"] is read as
    true ([True], 1, ["yes"], ["on"] and the like) passes the consent check
    and gets a response. *)
Theorem body_without_consent_is_rejected {S} (database : Adapter S)
    (email_str : pystr → option pystr) (body : dict) (payload : Inquiry.t) (w : world S) :
  Inquiry.new email_str body = Return payload →
  ((body !! "consent" = None ∨ ∃ v, body !! "consent" = Some v ∧ lax_bool v = Some false) →
   post_inquiry database email_str body w
   = (Raise (HTTPException 400 (lit "Consent required for storing contact info.")), w))
  ∧ ((∃ v, body !! "consent" = Some v ∧ lax_bool v = Some true) →
     Inquiry.consent payload = true
     ∧ ∃ response, (post_inquiry database email_str body w).1 = Return response).
Proof.
  intros Hnew. rewrite (post_inquiry_accepted _ _ _ _ _ Hnew).
  apply Inquiry_new_Return in Hnew as (_ & _ & _ & _ & _ & Hc).
  apply bool_or_Return in Hc. split.
  - intros Hoff.
    assert (Hfalse : Inquiry.consent payload = false).
    { destruct Hoff as [Hn | (v & Hv & Hb)].
      - rewrite Hn in Hc. exact Hc.
      - rewrite Hv in Hc. congruence. }
    unfold submit_inquiry. rewrite Hfalse. reflexivity.
  - intros (v & Hv & Hb). rewrite Hv in Hc.
    assert (Htrue : Inquiry.consent payload = true) by congruence.
    split; [exact Htrue|].
    destruct w as [d env s cs]. unfold submit_inquiry, call_create_document.
    rewrite Htrue. cbv [negb]. step.
    destruct d as [h|]; [|eexists; reflexivity].
    destruct (create_document database "inquiry" payload s) as [[stored|str_e] s'];
      eexists; reflexivity.
Qed.

Lemma body_without_consent_is_rejected_witness :
  let body : dict :=
    {[ "name" := VStr (lit "Ada Lovelace"); "email" := VStr (lit "ada@example.org");
       "topic" := VStr (lit "Partnerships"); "message" := VStr (lit "Please call back.") ]} in
  let w := World (Some DatabaseHandle) ∅ empty_store [] in
  Inquiry.new lower_domain body = Return (sample_inquiry false)
  ∧ body !! "consent" = None
  ∧ post_inquiry SpecStore.adapter lower_domain body w
    = (Raise (HTTPException 400 (lit "Consent required for storing contact info.")), w).
Proof.
  split; [reflexivity|]. split; [reflexivity|].
  exact (proj1 (body_without_consent_is_rejected SpecStore.adapter lower_domain
                  {[ "name" := VStr (lit "Ada Lovelace");
                     "email" := VStr (lit "ada@example.org");
                     "topic" := VStr (lit "Partnerships");
                     "message" := VStr (lit "Please call back.") ]}
                  (sample_inquiry false) (World (Some DatabaseHandle) ∅ empty_store [])
                  eq_refl) (or_introl eq_refl)).
Defined.

(** A consent written ["Yes"] is read as true, one written ["no"] or 0 as
    false, and one written ["maybe"] is refused by the model. *)
Example consent_as_written :
  let w := World (Some DatabaseHandle) ∅ empty_store [] in
  (post_inquiry SpecStore.adapter lower_domain (sample_body (VStr (lit "Yes"))) w).1
  = Return thank_you
  ∧ (post_inquiry SpecStore.adapter lower_domain (sample_body (VStr (lit "no"))) w).1
    = Raise (HTTPException 400 (lit "Consent required for storing contact info."))
  ∧ (post_inquiry SpecStore.adapter lower_domain (sample_body (VInt 0)) w).1
    = Raise (HTTPException 400 (lit "Consent required for storing contact info."))
  ∧ (post_inquiry SpecStore.adapter lower_domain (sample_body (VStr (lit "maybe"))) w).1
    = Raise (ValidationError "Inquiry").
Proof. repeat split; vm_compute; reflexivity. Qed.

(** ** The round trip of an inquiry *)

Lemma submit_inquiry_hands_over_payload {S} (database : Adapter S)
    (payload : Inquiry.t) (w : world S) (h : Database) :
  db w = Some h →
  Inquiry.consent payload = true →
  calls (submit_inquiry database payload w).2
  = calls w ++ [CreateDocument "inquiry" payload].
Proof.
  intros Hdb Hc. destruct w as [d env s cs]. cbv [db] in Hdb. subst d.
  unfold submit_inquiry, call_create_document. rewrite Hc. cbv [negb]. step.
  destruct (create_document database "inquiry" payload s) as [[stored|str_e] s'];
    reflexivity.
Qed.

(** C8, as stated, fails: the address is handed to the store, and stored, as
    [EmailStr] gave it back, not as it was submitted.  With a validation
    that lower-cases the domain, the address submitted as [Ada@EXAMPLE.ORG]
    reaches [create_document] and the collection as [Ada@example.org]. *)
Lemma stored_email_is_not_the_submitted_one :
  let body := sample_body (VBool true) in
  let w := World (Some DatabaseHandle) ∅ empty_store [] in
  let r := post_inquiry SpecStore.adapter lower_domain body w in
  r.1 = Return thank_you
  ∧ body !! "email" = Some (VStr (lit "Ada@EXAMPLE.ORG"))
  ∧ calls r.2
    = [CreateDocument "inquiry"
         {| Inquiry.name := lit "Ada Lovelace";
            Inquiry.email := lit "Ada@example.org";
            Inquiry.company := None;
            Inquiry.topic := lit "Partnerships";
            Inquiry.message := lit "Please call back.";
            Inquiry.consent := true |}]
  ∧ ∃ stored : dict,
      SpecStore.collections (store r.2) !! "inquiry" = Some [stored]
      ∧ stored !! "email" = Some (VStr (lit "Ada@example.org"))
      ∧ stored !! "email" ≠ body !! "email".
Proof.
  split; [reflexivity|]. split; [reflexivity|]. split; [reflexivity|].
  eexists. split; [reflexivity|]. split; [reflexivity|].
  vm_compute. discriminate.
Qed.

(** C8, amended: for a request body that the [Inquiry] model accepts with
    [consent] true, and a healthy store, what is handed to [create_document]
    and appended to ["inquiry"] is the validated payload, field for field: [name], [topic], [message], and
    [company] when given, exactly as submitted, [consent] true, and [email]
    as [EmailStr] gave it back, which need not be the submitted string;
    neither the handler nor the store changes a field of the payload. *)
Theorem post_inquiry_round_trip (email_str : pystr → option pystr)
    (w : world SpecStore.t) (h : Database) (body : dict) (payload : Inquiry.t) :
  db w = Some h →
  SpecStore.failure (store w) = None →
  Inquiry.new email_str body = Return payload →
  Inquiry.consent payload = true →
  let r := post_inquiry SpecStore.adapter email_str body w in
  let before := default [] (SpecStore.collections (store w) !! "inquiry") in
  r.1 = Return thank_you
  ∧ calls r.2 = calls w ++ [CreateDocument "inquiry" payload]
  ∧ ∃ stored : dict,
      SpecStore.collections (store r.2) !! "inquiry" = Some (before ++ [stored])
      ∧ (SpecStore.get_documents "inquiry" None None (store r.2)).1 = Ok (before ++ [stored])
      ∧ stored !! "name" = body !! "name"
      ∧ stored !! "topic" = body !! "topic"
      ∧ stored !! "message" = body !! "message"
      ∧ (∀ c, body !! "company" = Some (VStr c) → stored !! "company" = Some (VStr c))
      ∧ (body !! "company" = None → stored !! "company" = Some VNone)
      ∧ stored !! "consent" = Some (VBool true)
      ∧ (∃ submitted, body !! "email" = Some (VStr submitted)
                      ∧ email_str submitted = Some (Inquiry.email payload)
                      ∧ stored !! "email" = Some (VStr (Inquiry.email payload)))
      ∧ strip_id stored = SpecStore.model_dump payload.
Proof.
  intros Hdb Hok Hnew Hc. cbv zeta.
  rewrite (post_inquiry_accepted _ _ _ _ _ Hnew).
  pose proof (submit_inquiry_stores_payload w h payload Hdb Hok Hc) as Hs.
  cbv zeta in Hs.
  destruct Hs as (Hr & stored & Hcol & Hget & Hn & He & Hco & Ht & Hm & Hcs & Hstrip).
  apply Inquiry_new_Return in Hnew as (Bn & (submitted & Be & Bs) & Bc & Bt & Bm & _).
  apply optional_str_Return in Bc.
  split; [exact Hr|].
  split; [exact (submit_inquiry_hands_over_payload _ _ _ _ Hdb Hc)|].
  exists stored.
  repeat split; try assumption; try congruence.
  - intros c Hbody. rewrite Hbody in Bc. rewrite Hco, Bc. reflexivity.
  - intros Hbody. rewrite Hbody in Bc. rewrite Hco, Bc. reflexivity.
  - exists submitted. repeat split; assumption.
Qed.

Lemma post_inquiry_round_trip_witness :
  let body := sample_body (VBool true) in
  let w := World (Some DatabaseHandle) ∅ empty_store [] in
  let r := post_inquiry SpecStore.adapter lower_domain body w in
  ∃ payload,
    Inquiry.new lower_domain body = Return payload
    ∧ Inquiry.consent payload = true
    ∧ r.1 = Return thank_you
    ∧ ∃ stored : dict,
        SpecStore.collections (store r.2) !! "inquiry" = Some ([] ++ [stored])
        ∧ stored !! "name" = body !! "name"
        ∧ stored !! "email" = Some (VStr (Inquiry.email payload)).
Proof.
  eexists. split; [reflexivity|]. split; [reflexivity|].
  pose proof (post_inquiry_round_trip lower_domain
                (World (Some DatabaseHandle) ∅ empty_store []) DatabaseHandle
                (sample_body (VBool true)) _ eq_refl eq_refl eq_refl eq_refl) as H.
  cbv zeta in H.
  destruct H as (Hr & _ & stored & Hcol & _ & Hn & _ & _ & _ & _ & _ & (s & _ & _ & He) & _).
  split; [exact Hr|]. exists stored.
  split; [exact Hcol|]. split; [exact Hn | exact He].
Defined.

(** ** What the returned records carry *)

Lemma Forall2_right {A B} (P : A → B → Prop) (Q : B → Prop) (l : list A) (k : list B) :
  Forall2 P l k → (∀ x y, P x y → Q y) → Forall Q k.
Proof.
  intros H HPQ. induction H as [|x y l k Hxy _ IH]; constructor; eauto.
Qed.

(** X9: every office [GET /api/offices] returns, from the store or from the
    fixed list, has no address or one that [EmailStr] accepted and gave
    back. *)
Theorem list_offices_emails_valid {S} (database : Adapter S)
    (email_str : pystr → option pystr) (w : world S) (offices : list Office.t) :
  (list_offices database email_str w).1 = Return offices →
  Forall (λ o, ∀ a, Office.email o = Some a → ∃ s, email_str s = Some a) offices.
Proof.
  assert (Hvalid : ∀ kwargs o, Office.new email_str kwargs = Return o →
                   ∀ a, Office.email o = Some a → ∃ s, email_str s = Some a).
  { intros kwargs o Ho a Ha. apply Office_new_Return in Ho as (_ & _ & He).
    rewrite Ha in He. destruct He as (s & _ & Hs). exists s. exact Hs. }
  destruct w as [d env s cs]. unfold list_offices, call_get_documents.
  destruct d as [h|]; step.
  - destruct (get_documents database "office" None None s) as [[docs|e] s'];
      cbv [fst]; [|discriminate].
    intros H. apply comprehension_Return in H.
    eapply Forall2_right; [exact H|]. intros x y Hxy. eapply Hvalid. exact Hxy.
  - repeat match goal with
           | |- context [Office.new email_str ?kw] =>
               let H := fresh "Ho" in destruct (Office.new email_str kw) eqn:H
           end; cbv [fst]; try discriminate.
    intros H. injection H as <-.
    repeat constructor; eapply Hvalid; eassumption.
Qed.

Lemma list_offices_emails_valid_witness :
  let w := World None ∅ tt [] in
  (list_offices (broken_adapter (lit "down")) lower_domain w).1 = Return fixed_offices
  ∧ Forall (λ o, ∀ a, Office.email o = Some a → ∃ s, lower_domain s = Some a)
      fixed_offices.
Proof.
  split; [reflexivity|].
  exact (list_offices_emails_valid (broken_adapter (lit "down")) lower_domain
           (World None ∅ tt []) fixed_offices eq_refl).
Defined.

(** X10: with a store handle, the products [GET /api/solutions] returns
    carry the stored [name], [sector] and [summary] of their documents
    unchanged, the stored [featured] when it is a boolean, and [false] when
    the document has no ["featured"]. *)
Theorem list_solutions_reports_stored_fields {S} (database : Adapter S)
    (sector : option pystr) (featured : option bool) (w : world S) (h : Database)
    (docs : list dict) (s' : S) (products : list EnergyProduct.t) :
  db w = Some h →
  get_documents database "energyproduct" (Some (solutions_filter sector featured)) None
    (store w) = (Ok docs, s') →
  (list_solutions database sector featured w).1 = Return products →
  Forall2 (λ d p,
      d !! "name" = Some (VStr (EnergyProduct.name p))
      ∧ d !! "sector" = Some (VStr (EnergyProduct.sector p))
      ∧ d !! "summary" = Some (VStr (EnergyProduct.summary p))
      ∧ (d !! "featured" = None → EnergyProduct.featured p = false)
      ∧ (∀ b, d !! "featured" = Some (VBool b) → EnergyProduct.featured p = b))
    docs products.
Proof.
  intros Hdb Hq. destruct w as [d0 env s cs]. cbv [db store] in *. subst d0.
  unfold list_solutions, call_get_documents. step. rewrite Hq. cbv [fst].
  intros H. apply comprehension_Return in H.
  eapply Forall2_impl; [exact H|]. cbv beta.
  intros d p Hp. apply EnergyProduct_new_Return in Hp as (Hn & Hs & Hm & _ & Hf).
  rewrite strip_id_lookup in Hn, Hs, Hm by discriminate.
  apply bool_or_Return in Hf. rewrite strip_id_lookup in Hf by discriminate.
  repeat split; try assumption.
  - intros Hnone. rewrite Hnone in Hf. exact Hf.
  - intros b Hb. rewrite Hb in Hf. cbn [lax_bool] in Hf. congruence.
Qed.

Lemma list_solutions_reports_stored_fields_witness :
  let docs := [product_doc 1 "Inverter"] in
  let w := World (Some DatabaseHandle) ∅ tt [] in
  let p := {| EnergyProduct.name := lit "Inverter";
              EnergyProduct.sector := lit "solar";
              EnergyProduct.summary := lit "A short summary.";
              EnergyProduct.specs := None;
              EnergyProduct.image := None;
              EnergyProduct.featured := false |} in
  (list_solutions (constant_adapter docs) None (Some true) w).1 = Return [p]
  ∧ Forall2 (λ d p,
        d !! "name" = Some (VStr (EnergyProduct.name p))
        ∧ d !! "sector" = Some (VStr (EnergyProduct.sector p))
        ∧ d !! "summary" = Some (VStr (EnergyProduct.summary p))
        ∧ (d !! "featured" = None → EnergyProduct.featured p = false)
        ∧ (∀ b, d !! "featured" = Some (VBool b) → EnergyProduct.featured p = b))
      docs [p].
Proof.
  split; [reflexivity|].
  exact (list_solutions_reports_stored_fields
           (constant_adapter [product_doc 1 "Inverter"]) None (Some true)
           (World (Some DatabaseHandle) ∅ tt []) DatabaseHandle
           [product_doc 1 "Inverter"] tt _ eq_refl eq_refl eq_refl).
Defined.

(** ** The [User] schema *)

Lemma User_new_Return (email_str : pystr → option pystr)
    (int_of_str : pystr → option Z) (kwargs : dict) (u : User.t) :
  User.new email_str int_of_str kwargs = Return u →
  required_str "User" kwargs "name" = Return (User.name u)
  ∧ required_email "User" kwargs email_str "email" = Return (User.email u)
  ∧ required_str "User" kwargs "address" = Return (User.address u)
  ∧ optional_int_between "User" kwargs int_of_str 0 120 "age" = Return (User.age u)
  ∧ bool_or "User" kwargs true "is_active" = Return (User.is_active u).
Proof.
  unfold User.new. fields; try discriminate.
  intros H; injection H as <-. repeat split; reflexivity.
Qed.

(** X11: the age bound of [User] is inclusive on both sides.  Every user the
    constructor returns has an address that [EmailStr] accepted and gave
    back and, when it has an age, one between 0 and 120; and giving an
    accepted set of arguments the age [n] is accepted exactly when
    [0 ≤ n ≤ 120], the other fields staying as they were. *)
Theorem User_age_bounds (email_str : pystr → option pystr)
    (int_of_str : pystr → option Z) (kwargs : dict) (u : User.t) (n : Z) :
  User.new email_str int_of_str kwargs = Return u →
  (∃ s, kwargs !! "email" = Some (VStr s) ∧ email_str s = Some (User.email u))
  ∧ (∀ a, User.age u = Some a → 0 ≤ a ≤ 120)
  ∧ (kwargs !! "is_active" = None → User.is_active u = true)
  ∧ (0 ≤ n ≤ 120 →
     User.new email_str int_of_str (<["age" := VInt n]> kwargs)
     = Return {| User.name := User.name u; User.email := User.email u;
                 User.address := User.address u; User.age := Some n;
                 User.is_active := User.is_active u |})
  ∧ (¬ 0 ≤ n ≤ 120 →
     User.new email_str int_of_str (<["age" := VInt n]> kwargs)
     = Raise (ValidationError "User")).
Proof.
  intros Hu. apply User_new_Return in Hu as (Hf & Hf0 & Hf1 & Hf2 & Hf3).
  assert (Hn' : required_str "User" (<["age" := VInt n]> kwargs) "name"
                = Return (User.name u)).
  { unfold required_str in *. rewrite lookup_insert_ne by discriminate. exact Hf. }
  assert (He' : required_email "User" (<["age" := VInt n]> kwargs) email_str "email"
                = Return (User.email u)).
  { unfold required_email in *. rewrite lookup_insert_ne by discriminate. exact Hf0. }
  assert (Ha' : required_str "User" (<["age" := VInt n]> kwargs) "address"
                = Return (User.address u)).
  { unfold required_str in *. rewrite lookup_insert_ne by discriminate. exact Hf1. }
  assert (Hb' : bool_or "User" (<["age" := VInt n]> kwargs) true "is_active"
                = Return (User.is_active u)).
  { unfold bool_or in *. rewrite lookup_insert_ne by discriminate. exact Hf3. }
  assert (Hage : optional_int_between "User" (<["age" := VInt n]> kwargs) int_of_str
                   0 120 "age"
                 = if (0 <=? n) && (n <=? 120) then Return (Some n)
                   else Raise (ValidationError "User")).
  { unfold optional_int_between. rewrite lookup_insert_eq. reflexivity. }
  unfold User.new. rewrite Hn', He', Ha', Hb', Hage.
  cbv [mbind mret outcome_bind outcome_ret].
  split; [apply required_email_Return in Hf0; exact Hf0|].
  split; [intros b Hb; apply optional_int_between_Return in Hf2; rewrite Hb in Hf2;
          apply Hf2|].
  split; [intros Hnone; apply bool_or_Return in Hf3; rewrite Hnone in Hf3; exact Hf3|].
  split; intros Hn.
  - replace ((0 <=? n) && (n <=? 120)) with true; [reflexivity|].
    symmetry. apply andb_true_iff. split; apply Z.leb_le; lia.
  - replace ((0 <=? n) && (n <=? 120)) with false; [reflexivity|].
    symmetry. apply andb_false_iff.
    destruct (Z.leb_spec 0 n); [|left; reflexivity].
    destruct (Z.leb_spec n 120); [lia | right; reflexivity].
Qed.

Lemma User_age_bounds_witness :
  let kwargs : dict :=
    {[ "name" := VStr (lit "Ada"); "email" := VStr (lit "ada@example.org");
       "address" := VStr (lit "12 St James Square") ]} in
  let u := {| User.name := lit "Ada"; User.email := lit "ada@example.org";
              User.address := lit "12 St James Square"; User.age := None;
              User.is_active := true |} in
  User.new lower_domain decimal kwargs = Return u
  ∧ User.new lower_domain decimal (<["age" := VInt 120]> kwargs)
    = Return {| User.name := lit "Ada"; User.email := lit "ada@example.org";
                User.address := lit "12 St James Square"; User.age := Some 120;
                User.is_active := true |}
  ∧ User.new lower_domain decimal (<["age" := VInt 121]> kwargs)
    = Raise (ValidationError "User")
  ∧ User.new lower_domain decimal (<["age" := VInt (-1)]> kwargs)
    = Raise (ValidationError "User").
Proof.
  split; [reflexivity|].
  split.
  { exact (proj1 (proj2 (proj2 (proj2 (User_age_bounds lower_domain decimal
             {[ "name" := VStr (lit "Ada"); "email" := VStr (lit "ada@example.org");
                "address" := VStr (lit "12 St James Square") ]} _ 120 eq_refl))))
             ltac:(lia)). }
  split; reflexivity.
Defined.

(** An age written as a string of digits, or as a boolean, goes through the
    same bounds. *)
Example User_age_as_written :
  let kwargs (age : value) : dict :=
    {[ "name" := VStr (lit "Ada"); "email" := VStr (lit "ada@example.org");
       "address" := VStr (lit "12 St James Square"); "age" := age ]} in
  (u ← User.new lower_domain decimal (kwargs (VStr (lit "30"))); mret (User.age u))
  = Return (Some 30)
  ∧ (u ← User.new lower_domain decimal (kwargs (VBool true)); mret (User.age u))
    = Return (Some 1)
  ∧ User.new lower_domain decimal (kwargs (VStr (lit "130")))
    = Raise (ValidationError "User").
Proof. repeat split; vm_compute; reflexivity. Qed.
